(** * MERRA2 weather processing: a shallow embedding of [data_processing.py]

    The development follows the three functions of the module:
    - [compute_air_density] (lines 9-22) over IEEE binary64 arrays,
    - [fetch_and_process_data] (lines 24-54) over an explicit state made of
      the five accumulators, the files on disk and a trace of events,
    - [create_dataframe] (lines 56-67) over tables held as named columns.

    Numbers are Rocq's primitive binary64 floats, so every arithmetic step is
    the IEEE operation that numpy performs on [float64] arrays.  The
    exponential comes from the platform's mathematical library and is a
    parameter of the numerical part. *)

From Stdlib Require Import Floats ZArith NArith Ascii String List Bool Lia.
From stdpp Require Import base tactics option list strings gmap fin_maps.

Set Default Proof Using "Type".
Set Warnings "-inexact-float,-abstract-large-number".

Open Scope string_scope.

(** ** Exceptions and results *)

(** The Python exceptions that the modelled code can meet. *)
Inductive exn : Type :=
| ValueError (msg : string)
| KeyError (key : string)
| IndexError
| AttributeError (attr : string)
| HTTPError (status : Z)
| RequestException (url : string)
| OSError (path : string).

Inductive result (A : Type) : Type :=
| Ok (a : A)
| Raise (e : exn).

Arguments Ok {A} a.
Arguments Raise {A} e.

Definition rbind {A B : Type} (r : result A) (k : A -> result B) : result B :=
  match r with
  | Ok a => k a
  | Raise e => Raise e
  end.

Declare Scope result_scope.
Delimit Scope result_scope with result.
Notation "'do' x <- r ; k" := (rbind r (fun x => k))
  (at level 10, x name, r at level 100, k at level 200) : result_scope.

(** ** One-dimensional float64 arrays *)

Abbreviation ndarray := (list float).

(** [np.full(shape, v)] for a one-dimensional shape. *)
Definition np_full (shape : nat) (v : float) : ndarray := repeat v shape.

(** [arr < 0]: the element-wise comparison, a boolean array. *)
Definition lt_zero (arr : ndarray) : list bool :=
  map (fun x => (x <? 0)%float) arr.

(** Python's builtin [any] over a boolean array. *)
Definition any (bs : list bool) : bool := existsb id bs.

(** Array-with-scalar arithmetic maps over the array. *)
Definition scalar_div (c : float) (arr : ndarray) : ndarray :=
  map (fun x => (c / x)%float) arr.
Definition div_scalar (arr : ndarray) (c : float) : ndarray :=
  map (fun x => (x / c)%float) arr.
Definition scalar_mul (c : float) (arr : ndarray) : ndarray :=
  map (fun x => (c * x)%float) arr.
Definition mul_scalar (arr : ndarray) (c : float) : ndarray :=
  map (fun x => (x * c)%float) arr.

Definition broadcast_msg : string := "operands could not be broadcast together".

(** Array-with-array arithmetic: numpy pairs the elements of two arrays of
    one length, stretches an array of length one, and raises [ValueError] on
    any other pair of shapes. *)
Definition broadcast (f : float -> float -> float) (a b : ndarray)
  : result ndarray :=
  if decide (length a = length b) then Ok (zip_with f a b)
  else match a, b with
       | [x], _ => Ok (map (f x) b)
       | _, [y] => Ok (map (fun x => f x y) a)
       | _, _ => Raise (ValueError broadcast_msg)
       end.

Definition array_mul : ndarray -> ndarray -> result ndarray := broadcast PrimFloat.mul.
Definition array_sub : ndarray -> ndarray -> result ndarray := broadcast PrimFloat.sub.

(** ** The density model *)

Definition negative_msg : string :=
  "Temperature, pressure, or humidity data contains negative values.".

(** The error of line 14, which the specification calls [InvalidInputError]. *)
Definition InvalidInputError : exn := ValueError negative_msg.

Definition R_const : float := 287.05.
Definition Rw_const : float := 461.5.

(** No element of the array is below zero, as line 13 tests it. *)
Definition no_negative (arr : ndarray) : Prop :=
  Forall (fun x => (x <? 0)%float = false) arr.

Definition has_negative (arr : ndarray) : Prop :=
  Exists (fun x => (x <? 0)%float = true) arr.

(** ** Strings, as Python's [str] operations use them *)

(** A [str] is modelled as a sequence of characters with code points below
    256; [is_space] is [str.isspace] on that range. *)
Definition is_space (c : ascii) : bool :=
  let n := N_of_ascii c in
  ((9 <=? n) && (n <=? 13) || (28 <=? n) && (n <=? 32)
   || (n =? 133) || (n =? 160))%N.

Fixpoint lstrip (s : string) : string :=
  match s with
  | String c rest => if is_space c then lstrip rest else s
  | EmptyString => EmptyString
  end.

Fixpoint rstrip (s : string) : string :=
  match s with
  | String c rest =>
      match rstrip rest with
      | EmptyString => if is_space c then EmptyString else String c EmptyString
      | r => String c r
      end
  | EmptyString => EmptyString
  end.

(** [s.strip()]. *)
Definition strip (s : string) : string := rstrip (lstrip s).

(** [s[lo:hi]] for [0 <= lo <= hi]; like Python's slice it is clipped to the
    string. *)
Definition slice (lo hi : nat) (s : string) : string :=
  substring lo (hi - lo) s.

Definition LF : ascii := ascii_of_N 10.
Definition CR : ascii := ascii_of_N 13.

(** Text mode with the default [newline=None]: CR LF and a lone CR are read
    as LF. *)
Fixpoint universal_newlines (s : string) : string :=
  match s with
  | String c rest =>
      if Ascii.eqb c CR then
        match rest with
        | String c' rest' =>
            if Ascii.eqb c' LF then String LF (universal_newlines rest')
            else String LF (universal_newlines rest)
        | EmptyString => String LF EmptyString
        end
      else String c (universal_newlines rest)
  | EmptyString => EmptyString
  end.

(** The lines of a text, each keeping its terminator. *)
Fixpoint split_keepends (s : string) : list string :=
  match s with
  | String c rest =>
      if Ascii.eqb c LF then String c EmptyString :: split_keepends rest
      else match split_keepends rest with
           | l :: ls => String c l :: ls
           | [] => [String c EmptyString]
           end
  | EmptyString => []
  end.

(** [file.readlines()] on a file opened with mode ['r']. *)
Definition readlines (text : string) : list string :=
  split_keepends (universal_newlines text).

Definition starts_with_slash (s : string) : bool :=
  match s with
  | String c _ => Ascii.eqb c "/"%char
  | EmptyString => false
  end.

Fixpoint ends_with_slash (s : string) : bool :=
  match s with
  | String c EmptyString => Ascii.eqb c "/"%char
  | String _ rest => ends_with_slash rest
  | EmptyString => false
  end.

(** [os.path.join(a, b)] on a POSIX system. *)
Definition os_path_join (a b : string) : string :=
  if starts_with_slash b then b
  else if ends_with_slash a then a ++ b
  else match a with
       | EmptyString => b
       | _ => a ++ "/" ++ b
       end.

(** ** Calendar values and their text form *)

(** A [datetime] object: the fields that [strftime] reads, and the
    microsecond that the format of this module drops. *)
Record datetime : Type := mk_datetime {
  year : N; month : N; day : N;
  hour : N; minute : N; second : N;
  microsecond : N
}.

(** A pandas [Timestamp] as [pd.to_datetime] builds it from a text with
    second resolution. *)
Record Timestamp : Type := mk_Timestamp {
  ts_year : N; ts_month : N; ts_day : N;
  ts_hour : N; ts_minute : N; ts_second : N
}.

Definition is_leap (y : N) : bool :=
  ((y mod 4 =? 0) && negb (y mod 100 =? 0) || (y mod 400 =? 0))%N.

Definition days_in_month (y m : N) : N :=
  match m with
  | 2 => if is_leap y then 29 else 28
  | 4 | 6 | 9 | 11 => 30
  | _ => 31
  end%N.

(** The field ranges of a proleptic Gregorian date and a time of day. *)
Definition valid_fields (y m d hh mi ss : N) : bool :=
  ((1 <=? y) && (y <=? 9999) && (1 <=? m) && (m <=? 12)
   && (1 <=? d) && (d <=? days_in_month y m)
   && (hh <? 24) && (mi <? 60) && (ss <? 60))%N.

(** What the constructor of [datetime] enforces. *)
Definition valid_datetime (dt : datetime) : bool :=
  valid_fields (year dt) (month dt) (day dt) (hour dt) (minute dt) (second dt)
  && (microsecond dt <? 1000000)%N.

Definition digit_char (d : N) : ascii := ascii_of_N (48 + d).

Fixpoint decimal_fuel (fuel : nat) (n : N) (acc : string) : string :=
  match fuel with
  | O => acc
  | S fuel' =>
      let acc' := String (digit_char (n mod 10)) acc in
      if (n / 10 =? 0)%N then acc' else decimal_fuel fuel' (n / 10) acc'
  end.

(** The decimal numeral of [n]; a number has at most one digit per bit. *)
Definition decimal (n : N) : string :=
  decimal_fuel (S (N.to_nat (N.log2 n))) n EmptyString.

Fixpoint zeros (k : nat) : string :=
  match k with
  | O => EmptyString
  | S k' => String "0"%char (zeros k')
  end.

(** C's [%0wd]: at least [width] digits, zeros on the left. *)
Definition zero_pad (width : nat) (n : N) : string :=
  let s := decimal n in zeros (width - String.length s) ++ s.

(** One conversion of a [strftime] format.  The module uses [%Y], [%m], [%d],
    [%H], [%M] and [%S]; any other one is copied as it stands. *)
Definition directive (k : ascii) (y m d hh mi ss : N) : string :=
  if Ascii.eqb k "Y" then zero_pad 4 y
  else if Ascii.eqb k "m" then zero_pad 2 m
  else if Ascii.eqb k "d" then zero_pad 2 d
  else if Ascii.eqb k "H" then zero_pad 2 hh
  else if Ascii.eqb k "M" then zero_pad 2 mi
  else if Ascii.eqb k "S" then zero_pad 2 ss
  else if Ascii.eqb k "%" then "%"
  else String "%" (String k EmptyString).

Fixpoint format_fields (fmt : string) (y m d hh mi ss : N) : string :=
  match fmt with
  | String c rest =>
      if Ascii.eqb c "%" then
        match rest with
        | String k rest' =>
            directive k y m d hh mi ss ++ format_fields rest' y m d hh mi ss
        | EmptyString => "%"
        end
      else String c (format_fields rest y m d hh mi ss)
  | EmptyString => EmptyString
  end.

(** [dt.strftime(fmt)]. *)
Definition strftime (fmt : string) (dt : datetime) : string :=
  format_fields fmt (year dt) (month dt) (day dt)
    (hour dt) (minute dt) (second dt).

(** [ts.strftime(fmt)], which [Series.dt.strftime] applies to each element. *)
Definition ts_strftime (fmt : string) (ts : Timestamp) : string :=
  format_fields fmt (ts_year ts) (ts_month ts) (ts_day ts)
    (ts_hour ts) (ts_minute ts) (ts_second ts).

(** The format that lines 58 and 63 pass. *)
Definition datetime_format : string := "%Y-%m-%d %H:%M:%S".

Definition digit_value (c : ascii) : option N :=
  let n := N_of_ascii c in
  if ((48 <=? n) && (n <=? 57))%N then Some (n - 48)%N else None.

(** The value of a run of decimal digits, most significant first. *)
Fixpoint digits_value (acc : N) (cs : list ascii) : option N :=
  match cs with
  | [] => Some acc
  | c :: cs' =>
      match digit_value c with
      | Some d => digits_value (10 * acc + d)%N cs'
      | None => None
      end
  end.

Definition is_char (c : ascii) (k : ascii) : bool := Ascii.eqb c k.

(** [pd.to_datetime] on one text.  The module only feeds it texts written by
    [strftime] with [datetime_format], so the model reads that layout,
    checks the calendar ranges, and refuses every other text. *)
Definition pd_to_datetime (s : string) : result Timestamp :=
  match list_ascii_of_string s with
  | [y1; y2; y3; y4; a; m1; m2; b; d1; d2; c; h1; h2; e; n1; n2; f; s1; s2] =>
      match digits_value 0 [y1; y2; y3; y4], digits_value 0 [m1; m2],
            digits_value 0 [d1; d2], digits_value 0 [h1; h2],
            digits_value 0 [n1; n2], digits_value 0 [s1; s2] with
      | Some y, Some m, Some d, Some hh, Some mm, Some ss =>
          if is_char a "-" && is_char b "-" && is_char c " "
             && is_char e ":" && is_char f ":" && valid_fields y m d hh mm ss
          then Ok (mk_Timestamp y m d hh mm ss)
          else Raise (ValueError s)
      | _, _, _, _, _, _ => Raise (ValueError s)
      end
  | _ => Raise (ValueError s)
  end.

(** The shape [YYYY-MM-DD HH:MM:SS]: nineteen characters, digits and the
    five separators, nothing after the seconds. *)
Definition is_digit (c : ascii) : bool :=
  match digit_value c with Some _ => true | None => false end.

Definition is_ymd_hms (s : string) : bool :=
  match list_ascii_of_string s with
  | [y1; y2; y3; y4; a; m1; m2; b; d1; d2; c; h1; h2; e; n1; n2; f; s1; s2] =>
      forallb is_digit [y1; y2; y3; y4; m1; m2; d1; d2; h1; h2; n1; n2; s1; s2]
      && is_char a "-" && is_char b "-" && is_char c " "
      && is_char e ":" && is_char f ":"
  | _ => false
  end.

(** ** Tables *)

(** A column of a [DataFrame]: of floats, of timestamps or of texts.
    [ObjectCol] is the column that pandas builds from an empty list: it has
    no element to infer a type from, so its dtype is [object] and its
    length is zero. *)
Inductive column : Type :=
| FloatCol (xs : list float)
| TimeCol (ts : list Timestamp)
| StrCol (ss : list string)
| ObjectCol.

Definition col_length (c : column) : nat :=
  match c with
  | FloatCol xs => length xs
  | TimeCol ts => length ts
  | StrCol ss => length ss
  | ObjectCol => 0
  end.

(** The dtype that the constructor of [DataFrame] infers for a column. *)
Definition infer_dtype (c : column) : column :=
  match c with
  | FloatCol [] => ObjectCol
  | TimeCol [] => ObjectCol
  | _ => c
  end.

(** A [DataFrame]: its columns by name, in column order. *)
Abbreviation DataFrame := (list (string * column)).

Definition column_names (df : DataFrame) : list string := map fst df.

(** [len(df)]: the length of the index, which every column shares. *)
Definition nrows (df : DataFrame) : nat :=
  match df with
  | (_, c) :: _ => col_length c
  | [] => 0
  end.

Definition same_length_msg : string := "All arrays must be of the same length".

(** [pd.DataFrame(dict)]: one column per key in insertion order, each with
    its inferred dtype; columns of different lengths are refused. *)
Definition pd_DataFrame (cols : list (string * column)) : result DataFrame :=
  match cols with
  | [] => Ok []
  | (_, c) :: rest =>
      if forallb (fun kc => Nat.eqb (col_length kc.2) (col_length c)) rest
      then Ok (map (fun kc => (kc.1, infer_dtype kc.2)) cols)
      else Raise (ValueError same_length_msg)
  end.

Fixpoint df_lookup (df : DataFrame) (name : string) : option column :=
  match df with
  | (k, c) :: rest => if String.eqb k name then Some c else df_lookup rest name
  | [] => None
  end.

(** [df[name]] read as a numeric column; comparisons and arithmetic on an
    empty [object] column give empty results, as on an empty numeric one. *)
Definition df_floats (df : DataFrame) (name : string) : result (list float) :=
  match df_lookup df name with
  | Some (FloatCol xs) => Ok xs
  | Some ObjectCol => Ok []
  | Some _ => Raise (ValueError name)
  | None => Raise (KeyError name)
  end.

(** [df[name].dt]: the accessor exists on datetime columns only; on an
    [object] column, the empty one included, it raises [AttributeError]. *)
Definition df_times (df : DataFrame) (name : string)
  : result (list Timestamp) :=
  match df_lookup df name with
  | Some (TimeCol ts) => Ok ts
  | Some _ => Raise (AttributeError "dt")
  | None => Raise (KeyError name)
  end.

(** [df[name] = c]: an existing column is replaced where it stands, a new
    one goes last. *)
Fixpoint df_set (df : DataFrame) (name : string) (c : column) : DataFrame :=
  match df with
  | (k, c0) :: rest =>
      if String.eqb k name then (k, c) :: rest
      else (k, c0) :: df_set rest name c
  | [] => [(name, c)]
  end.

(** [xs ** 2] on a float64 column, which numpy evaluates as a square, and
    [np.sqrt]. *)
Definition pow2 (xs : list float) : list float :=
  map (fun x => (x * x)%float) xs.
Definition np_sqrt (xs : list float) : list float := map PrimFloat.sqrt xs.

(** The sum of two columns of one table (they share its index). *)
Definition series_add (xs ys : list float) : list float :=
  zip_with PrimFloat.add xs ys.

Fixpoint mapM_result {A B : Type} (f : A -> result B) (l : list A)
  : result (list B) :=
  match l with
  | [] => Ok []
  | a :: l' =>
      (do b <- f a;
       do bs <- mapM_result f l';
       Ok (b :: bs))%result
  end.

(** ** Remote sources and decoded datasets *)

Record Response : Type := mk_Response {
  status_code : Z;
  content : string
}.

(** [Response.raise_for_status()]. *)
Definition raise_for_status (r : Response) : result unit :=
  if ((400 <=? status_code r) && (status_code r <? 600))%Z
  then Raise (HTTPError (status_code r))
  else Ok tt.

(** The time variable of a dataset: its values and its [units] attribute. *)
Record NcTime : Type := mk_NcTime {
  time_values : list float;
  time_units : option string
}.

(** An opened dataset: the gridded variables by name, each an array over
    (time, lat, lon), and the time variable when the file has one. *)
Record NcDataset : Type := mk_NcDataset {
  grids : gmap string (list (list (list float)));
  time_var : option NcTime
}.

(** [val[0][0]] on one time step of a gridded variable. *)
Definition first_cell (val : list (list float)) : result float :=
  match val with
  | (x :: _) :: _ => Ok x
  | _ => Raise IndexError
  end.

(** [[val[0][0] for val in data.variables[name][:]]]. *)
Definition first_cells (data : NcDataset) (name : string)
  : result (list float) :=
  match grids data !! name with
  | Some arr => mapM_result first_cell arr
  | None => Raise (KeyError name)
  end.

(** ** The world of the pipeline *)

Inductive event : Type :=
| Requested (url : string)
| Failed (file_name : string) (e : exn)
| Saved (save_path : string).

(** The five accumulators of line 29, the files on disk and what the run has
    done so far. *)
Record State : Type := mk_State {
  u_50 : list float;
  v_50 : list float;
  T2M : list float;
  PS : list float;
  DateTimes : list datetime;
  fs : gmap string string;
  trace : list event
}.

(** Effectful code: it may raise, and what it did before raising stays. *)
Definition Action (A : Type) : Type := State -> result A * State.

Definition aret {A : Type} (a : A) : Action A := fun s => (Ok a, s).

Definition abind {A B : Type} (m : Action A) (k : A -> Action B) : Action B :=
  fun s =>
    match m s with
    | (Ok a, s') => k a s'
    | (Raise e, s') => (Raise e, s')
    end.

Definition lift {A : Type} (r : result A) : Action A := fun s => (r, s).

Declare Scope action_scope.
Delimit Scope action_scope with action.
Notation "'act' x <- m ; k" := (abind m (fun x => k))
  (at level 10, x name, m at level 100, k at level 200) : action_scope.

Definition set_fs (f : gmap string string) (s : State) : State :=
  mk_State (u_50 s) (v_50 s) (T2M s) (PS s) (DateTimes s) f (trace s).

Definition log (ev : event) (s : State) : State :=
  mk_State (u_50 s) (v_50 s) (T2M s) (PS s) (DateTimes s) (fs s)
    (trace s ++ [ev]).

(** [acc.extend(xs)], one per accumulator. *)
Definition extend_u_50 (xs : list float) : Action unit := fun s =>
  (Ok tt, mk_State (u_50 s ++ xs) (v_50 s) (T2M s) (PS s) (DateTimes s)
            (fs s) (trace s)).
Definition extend_v_50 (xs : list float) : Action unit := fun s =>
  (Ok tt, mk_State (u_50 s) (v_50 s ++ xs) (T2M s) (PS s) (DateTimes s)
            (fs s) (trace s)).
Definition extend_T2M (xs : list float) : Action unit := fun s =>
  (Ok tt, mk_State (u_50 s) (v_50 s) (T2M s ++ xs) (PS s) (DateTimes s)
            (fs s) (trace s)).
Definition extend_PS (xs : list float) : Action unit := fun s =>
  (Ok tt, mk_State (u_50 s) (v_50 s) (T2M s) (PS s ++ xs) (DateTimes s)
            (fs s) (trace s)).
Definition extend_DateTimes (ds : list datetime) : Action unit := fun s =>
  (Ok tt, mk_State (u_50 s) (v_50 s) (T2M s) (PS s) (DateTimes s ++ ds)
            (fs s) (trace s)).

(** [os.remove(path)]. *)
Definition os_remove (path : string) : Action unit := fun s =>
  match fs s !! path with
  | Some _ => (Ok tt, set_fs (delete path (fs s)) s)
  | None => (Raise (OSError path), s)
  end.

(** The lengths of the five accumulators agree. *)
Definition aligned (s : State) : Prop :=
  length (v_50 s) = length (u_50 s) /\
  length (T2M s) = length (u_50 s) /\
  length (PS s) = length (u_50 s) /\
  length (DateTimes s) = length (u_50 s).

(** The accumulators of two states are the same. *)
Definition same_accumulators (s s' : State) : Prop :=
  u_50 s' = u_50 s /\ v_50 s' = v_50 s /\ T2M s' = T2M s /\
  PS s' = PS s /\ DateTimes s' = DateTimes s.

(** ** The pipeline *)

Definition site_suffix : string := "-site.nc4".

(** Line 32: the name of the temporary artifact of a manifest line. *)
Definition file_name_of (url : string) : string :=
  strip (slice 108 116 url) ++ site_suffix.

(** ** Reference formulas and auxiliary notions of the statements *)

(** The wind speed of one sample, as section 4.3 of the specification
    writes it. *)
Definition wind_speed (u v : float) : float :=
  PrimFloat.sqrt (u * u + v * v)%float.

(** The columns of the finished table, in the order of the specification. *)
Definition output_columns : list string :=
  ["datetime"; "surface_pressure"; "u_50"; "v_50"; "temp_2m"; "dens_50m";
   "ws_50m"].

(** The URLs requested so far, oldest first. *)
Definition requests (tr : list event) : list string :=
  flat_map (fun ev => match ev with Requested url => [url] | _ => [] end) tr.

Definition two_digits (n : N) : string :=
  String (digit_char (n / 10)) (String (digit_char (n mod 10)) EmptyString).

Definition four_digits (n : N) : string :=
  String (digit_char (n / 1000))
    (String (digit_char (n / 100 mod 10)) (two_digits (n mod 100))).

(** The texts of the timestamps as line 58 reads them back. *)
Definition read_back (dt : datetime) : result Timestamp :=
  pd_to_datetime (strftime datetime_format dt).

Definition stamp_of (dt : datetime) : Timestamp :=
  mk_Timestamp (year dt) (month dt) (day dt)
    (hour dt) (minute dt) (second dt).

(** The table that lines 58-63 build when nothing raises. *)
Definition finished_table (D : list datetime) (u v T P dens : list float)
  : DataFrame :=
  [("datetime", StrCol (map (strftime datetime_format) D));
   ("surface_pressure", FloatCol P);
   ("u_50", FloatCol u);
   ("v_50", FloatCol v);
   ("temp_2m", FloatCol T);
   ("dens_50m", FloatCol dens);
   ("ws_50m", FloatCol (np_sqrt (series_add (pow2 u) (pow2 v))))].

Definition same_lengths (D : list datetime) (u v T P : list float) : bool :=
  Nat.eqb (length P) (length D) && Nat.eqb (length u) (length D)
  && Nat.eqb (length v) (length D) && Nat.eqb (length T) (length D).

(** ** The decoded content of one source *)

(** What one source contributes: the four numeric sequences and the
    timestamps that lines 42-48 append to the accumulators. *)
Record RawVariableSet : Type := mk_rvs {
  rv_u_50 : list float;
  rv_v_50 : list float;
  rv_T2M : list float;
  rv_PS : list float;
  rv_DateTimes : list datetime
}.

Definition rvs_empty : RawVariableSet := mk_rvs [] [] [] [] [].

Definition rvs_app (a b : RawVariableSet) : RawVariableSet :=
  mk_rvs (rv_u_50 a ++ rv_u_50 b) (rv_v_50 a ++ rv_v_50 b)
    (rv_T2M a ++ rv_T2M b) (rv_PS a ++ rv_PS b)
    (rv_DateTimes a ++ rv_DateTimes b).

(** The sets of several sources, one after the other. *)
Definition rvs_concat (l : list RawVariableSet) : RawVariableSet :=
  foldr rvs_app rvs_empty l.

(** The five accumulators of a state. *)
Definition accumulated (s : State) : RawVariableSet :=
  mk_rvs (u_50 s) (v_50 s) (T2M s) (PS s) (DateTimes s).

(** The five sequences of a set have one length. *)
Definition rvs_aligned (r : RawVariableSet) : Prop :=
  length (rv_v_50 r) = length (rv_u_50 r)
  /\ length (rv_T2M r) = length (rv_u_50 r)
  /\ length (rv_PS r) = length (rv_u_50 r)
  /\ length (rv_DateTimes r) = length (rv_u_50 r).

(** Two [datetime] values that agree down to the second. *)
Definition same_to_the_second (a b : datetime) : Prop :=
  year a = year b /\ month a = month b /\ day a = day b
  /\ hour a = hour b /\ minute a = minute b /\ second a = second b.

(** ** A small world for the examples *)

Module Demo.

Fixpoint square_times (n : nat) (p : float) : float :=
  match n with
  | O => p
  | S n' => square_times n' (p * p)%float
  end.

(** A stand-in for the exponential, good enough to run the examples: the
    power series to the sixth degree on the argument halved ten times. *)
Definition exp (x : float) : float :=
  let y := (x / 1024)%float in
  square_times 10
    (1 + y * (1 + y / 2 * (1 + y / 3 * (1 + y / 4 * (1 + y / 5 * (1 + y / 6))))))%float.

(** The closed form of the density with [exp] and the default humidity. *)
Definition density (T P : float) : float :=
  ((1 / T) *
   (P / 287.05 - 0.5 * (2.05e-5 * exp (0.0631846 * T)) * (1 / 287.05 - 1 / 461.5)))%float.

(** 108 characters, so that the day of a granule stands at offsets 108 to
    116 of its URL. *)
Definition url_prefix : string :=
  "https://goldsmr4.gesdisc.eosdis.nasa.gov/opendap/MERRA2/M2T1NXSLV.5.12.4/2020/01/MERRA2_400.tavg1_2d_slv_Nx.".

Definition url_of (day : string) : string :=
  url_prefix ++ day ++ ".nc4.nc4?U50M,V50M,T2M,PS,time".

Definition line_of (day : string) : string :=
  url_of day ++ String LF EmptyString.

(** A header and four sources: the first decodes, the second answers 404,
    the third lacks the variable [V50M], the fourth is no dataset at all. *)
Definition manifest : string :=
  "MERRA-2 hourly subsets" ++ String LF EmptyString
  ++ line_of "20200101" ++ line_of "20200102"
  ++ line_of "20200103" ++ line_of "20200104".

Definition requests_get (url : string) : result Response :=
  if String.eqb url (url_of "20200101") then Ok (mk_Response 200 "CDF site 1")
  else if String.eqb url (url_of "20200102") then Ok (mk_Response 404 "Not Found")
  else if String.eqb url (url_of "20200103") then Ok (mk_Response 200 "CDF no V50M")
  else if String.eqb url (url_of "20200104") then Ok (mk_Response 200 "<html>busy</html>")
  else Raise (RequestException url).

Definition writable (path : string) : bool := true.

Definition hourly : string := "hours since 2020-01-01 00:30:00".

Definition site_1 : NcDataset :=
  mk_NcDataset
    (<["U50M" := [[[3.0%float]]; [[1.5%float]]]]>
       (<["V50M" := [[[4.0%float]]; [[(-2.0)%float]]]]>
          (<["T2M" := [[[280.0%float]]; [[281.5%float]]]]>
             (<["PS" := [[[101325.0%float]]; [[101300.0%float]]]]> ∅))))
    (Some (mk_NcTime [0%float; 1%float] (Some hourly))).

Definition no_V50M : NcDataset :=
  mk_NcDataset
    (<["U50M" := [[[2.5%float]]]]>
       (<["T2M" := [[[279.0%float]]]]>
          (<["PS" := [[[101000.0%float]]]]> ∅)))
    (Some (mk_NcTime [0%float] (Some hourly))).

Definition nc_open (bytes : string) : result NcDataset :=
  if String.eqb bytes "CDF site 1" then Ok site_1
  else if String.eqb bytes "CDF no V50M" then Ok no_V50M
  else Raise (OSError "NetCDF: Unknown file format").

(** The hour of a value between 0 and 23. *)
Definition hour_of (x : float) : N :=
  N.of_nat
    (length
       (filter (fun k => (k <=? x)%float)
          (map (fun k => PrimFloat.of_uint63 (Uint63.of_Z (Z.of_nat k)))
             (seq 1 23)))).

Definition num2date (values : list float) (units : string)
  : result (list datetime) :=
  if String.eqb units hourly
  then Ok (map (fun x => mk_datetime 2020 1 1 (hour_of x) 30 0 0) values)
  else Raise (ValueError units).

Definition csv_text (df : DataFrame) : string := "datetime,surface_pressure,u_50,v_50,temp_2m,dens_50m,ws_50m".

Definition manifest_path : string := "./MERRA2_20yrs/MERRA2_20yrs.txt".
Definition output_dir : string := "./MERRA2_20yrs/netfiles/".
Definition save_path : string := "./MERRA2_20yrs/MERRA2_20yrs.csv".

(** The disk holds the manifest; nothing has been accumulated or done. *)
Definition world : State :=
  mk_State [] [] [] [] [] (<[manifest_path := manifest]> ∅) [].

(** Two samples in accumulation order, the later instant first. *)
Definition later : datetime := mk_datetime 2020 1 2 13 30 0 250000.
Definition earlier : datetime := mk_datetime 2020 1 1 0 30 0 0.

Definition stamps : list datetime := [later; earlier].
Definition winds_u : list float := [3.0%float; 1.5%float].
Definition winds_v : list float := [4.0%float; (-2.0)%float].
Definition temps : list float := [280.0%float; 281.5%float].
Definition pressures : list float := [101325.0%float; 101300.0%float].

(** The table that these samples assemble into, and the state after it was
    saved. *)
Definition table : DataFrame :=
  finished_table stamps winds_u winds_v temps pressures
    (zip_with density temps pressures).

Definition saved : State :=
  log (Saved save_path)
    (set_fs (<[save_path := csv_text table]> (fs world)) world).

End Demo.

(** The world of [Demo] with a manifest that leaves the third source out:
    every source on it is read to the end or fails before anything is
    accumulated. *)
Module DemoClean.

Definition urls : list string :=
  [Demo.line_of "20200101"; Demo.line_of "20200102"; Demo.line_of "20200104"].

Definition manifest : string :=
  ("MERRA-2 hourly subsets" ++ String LF EmptyString
   ++ Demo.line_of "20200101" ++ Demo.line_of "20200102"
   ++ Demo.line_of "20200104")%string.

Definition world : State :=
  mk_State [] [] [] [] [] (<[Demo.manifest_path := manifest]> ∅) [].

(** What the first source holds. *)
Definition site_1_set : RawVariableSet :=
  mk_rvs [3.0%float; 1.5%float] [4.0%float; (-2.0)%float]
    [280.0%float; 281.5%float] [101325.0%float; 101300.0%float]
    [mk_datetime 2020 1 1 0 30 0 0; mk_datetime 2020 1 1 1 30 0 0].

End DemoClean.

(** * The pipeline and its properties *)

Section Pipeline.

(** The collaborators that the module reaches through its imports: the
    exponential, the HTTP client, the operating system's answer to
    creating a file, the netCDF reader on the bytes of a file, the time
    decoder and the text that [to_csv] writes for a table. *)
Variable exp : float -> float.
Variable requests_get : string -> result Response.
Variable writable : string -> bool.
Variable nc_open : string -> result NcDataset.
Variable num2date : list float -> string -> result (list datetime).
Variable csv_text : DataFrame -> string.

(** ** The density model, lines 9-22 *)

(** [np.exp(arr)]. *)
Definition np_exp (arr : ndarray) : ndarray := map exp arr.

(** Line 11: the humidity column, defaulted to 0.5 everywhere. *)
Definition rel_humidity_of (temp_col : ndarray) (humi_col : option ndarray)
  : ndarray :=
  match humi_col with
  | Some h => h
  | None => np_full (length temp_col) 0.5
  end.

(** Lines 9-22. *)
Definition compute_air_density
    (temp_col pres_col : ndarray) (humi_col : option ndarray)
  : result ndarray :=
  let rel_humidity := rel_humidity_of temp_col humi_col in
  if any (lt_zero temp_col) || any (lt_zero pres_col)
     || any (lt_zero rel_humidity)
  then Raise (ValueError negative_msg)
  else
    let inv_temp := scalar_div 1 temp_col in
    let dry := div_scalar pres_col R_const in
    let vapour :=
      scalar_mul 0.0000205 (np_exp (scalar_mul 0.0631846 temp_col)) in
    (do humid <- array_mul rel_humidity vapour;
     let wet := mul_scalar humid (1 / R_const - 1 / Rw_const)%float in
     do inner <- array_sub dry wet;
     array_mul inv_temp inner)%result.

(** The closed form of section 4.1 of the specification, for one index. *)
Definition density_formula (T P RH : float) : float :=
  ((1 / T) *
   (P / 287.05 - RH * (2.05e-5 * exp (0.0631846 * T)) * (1 / 287.05 - 1 / 461.5)))%float.

(** ** The source decoder and the table assembler *)

(** [requests.get(url)]. *)
Definition http_get (url : string) : Action Response := fun s =>
  (requests_get url, log (Requested url) s).

(** [with open(path, 'wb') as f: f.write(bytes)]. *)
Definition write_file (path bytes : string) : Action unit := fun s =>
  if writable path then (Ok tt, set_fs (<[path := bytes]> (fs s)) s)
  else (Raise (OSError path), s).

(** [Dataset(path, 'r')]. *)
Definition Dataset (path : string) : Action NcDataset := fun s =>
  match fs s !! path with
  | Some bytes => (nc_open bytes, s)
  | None => (Raise (OSError path), s)
  end.

(** Line 47: [num2date(data.variables['time'][:], data.variables['time'].units)]. *)
Definition decode_time (data : NcDataset) : result (list datetime) :=
  match time_var data with
  | Some t =>
      match time_units t with
      | Some units => num2date (time_values t) units
      | None => Raise (AttributeError "units")
      end
  | None => Raise (KeyError "time")
  end.

(** Lines 36-41: retrieve, persist, open. *)
Definition fetch_source (url full_path : string) : Action NcDataset :=
  (act result <- http_get (strip url);
   act _ <- lift (raise_for_status result);
   act _ <- write_file full_path (content result);
   Dataset full_path)%action.

(** Lines 42-48: each comprehension is evaluated, then its accumulator is
    extended, one variable after the other. *)
Definition extract_source (data : NcDataset) : Action unit :=
  (act us <- lift (first_cells data "U50M");
   act _ <- extend_u_50 us;
   act vs <- lift (first_cells data "V50M");
   act _ <- extend_v_50 vs;
   act ts <- lift (first_cells data "T2M");
   act _ <- extend_T2M ts;
   act ps <- lift (first_cells data "PS");
   act _ <- extend_PS ps;
   act dates <- lift (decode_time data);
   extend_DateTimes dates)%action.

(** Lines 36-50, the body of the [try]; [data.close()] changes nothing that
    the model holds. *)
Definition try_body (url full_path : string) : Action unit :=
  (act data <- fetch_source url full_path;
   act _ <- extract_source data;
   os_remove full_path)%action.

(** Lines 32-52: one turn of the loop. *)
Definition process_source (output_dir url : string) (s : State) : State :=
  let file_name := file_name_of url in
  let full_path := os_path_join output_dir file_name in
  match try_body url full_path s with
  | (Ok _, s') => s'
  | (Raise e, s') => log (Failed file_name e) s'
  end.

(** Lines 31-52: the loop over the manifest lines. *)
Definition process_sources (output_dir : string) (urls : list string)
    (s : State) : State :=
  fold_left (fun st url => process_source output_dir url st) urls s.

(** Lines 58-63: the table before it is written. *)
Definition assemble_table
    (DateTimes : list datetime) (u_50 v_50 T2M PS : list float)
  : result DataFrame :=
  (do stamps <- mapM_result
                  (fun dt => pd_to_datetime (strftime datetime_format dt))
                  DateTimes;
   do df <- pd_DataFrame
              [("datetime", TimeCol stamps);
               ("surface_pressure", FloatCol PS);
               ("u_50", FloatCol u_50);
               ("v_50", FloatCol v_50);
               ("temp_2m", FloatCol T2M)];
   do temp <- df_floats df "temp_2m";
   do pres <- df_floats df "surface_pressure";
   do dens <- compute_air_density temp pres None;
   let df := df_set df "dens_50m" (FloatCol dens) in
   do u <- df_floats df "u_50";
   do v <- df_floats df "v_50";
   let df :=
     df_set df "ws_50m" (FloatCol (np_sqrt (series_add (pow2 u) (pow2 v)))) in
   do stamps' <- df_times df "datetime";
   let df :=
     df_set df "datetime"
       (StrCol (map (ts_strftime datetime_format) stamps')) in
   Ok df)%result.

(** [df.to_csv(save_path, index=False)]. *)
Definition to_csv (df : DataFrame) (save_path : string) : Action unit :=
  fun s =>
    if writable save_path
    then (Ok tt, set_fs (<[save_path := csv_text df]> (fs s)) s)
    else (Raise (OSError save_path), s).

(** Lines 56-67. *)
Definition create_dataframe
    (DateTimes : list datetime) (u_50 v_50 T2M PS : list float)
    (save_path : string) : Action DataFrame :=
  (act df <- lift (assemble_table DateTimes u_50 v_50 T2M PS);
   act _ <- to_csv df save_path;
   act _ <- (fun s => (Ok tt, log (Saved save_path) s));
   aret df)%action.

(** Lines 24-54.  The accumulators start empty (line 29); a manifest that
    cannot be opened ends the run before any source is touched. *)
Definition fetch_and_process_data
    (file_path output_dir save_path : string) : Action DataFrame :=
  fun s =>
    match fs s !! file_path with
    | Some text =>
        let urls := drop 1 (readlines text) in
        let s0 := mk_State [] [] [] [] [] (fs s) (trace s) in
        let s1 := process_sources output_dir urls s0 in
        create_dataframe (DateTimes s1) (u_50 s1) (v_50 s1) (T2M s1) (PS s1)
          save_path s1
    | None => (Raise (OSError file_path), s)
    end.

(** ** Notions of the statements that depend on the collaborators *)

(** What lines 36-41 deliver for a manifest line, whatever the state:
    the response, its status, the creation of the file, the reader. *)
Definition fetch_result (url full_path : string) : result NcDataset :=
  (do r <- requests_get (strip url);
   do _ <- raise_for_status r;
   if writable full_path then nc_open (content r)
   else Raise (OSError full_path))%result.

(** The payload of a manifest line reached the disk. *)
Definition persisted (url full_path : string) (r : Response) : Prop :=
  requests_get (strip url) = Ok r
  /\ raise_for_status r = Ok tt
  /\ writable full_path = true.

(** The five sequences decoded from one dataset have one length. *)
Definition aligned_dataset (data : NcDataset) : Prop :=
  exists us vs ts ps dates,
    first_cells data "U50M" = Ok us
    /\ first_cells data "V50M" = Ok vs
    /\ first_cells data "T2M" = Ok ts
    /\ first_cells data "PS" = Ok ps
    /\ decode_time data = Ok dates
    /\ length vs = length us /\ length ts = length us
    /\ length ps = length us /\ length dates = length us.

(** A manifest line whose source either fails before any accumulator is
    extended (in lines 36-41, or at the first comprehension of line 42) or
    decodes into five sequences of one length. *)
Definition delivers (output_dir url : string) : Prop :=
  match fetch_result url (os_path_join output_dir (file_name_of url)) with
  | Ok data =>
      aligned_dataset data \/ exists e, first_cells data "U50M" = Raise e
  | Raise _ => True
  end.

(** Lines 36-37: the response of a manifest line, once its status was
    checked. *)
Definition retrieval (url : string) : result Response :=
  (do r <- requests_get (strip url);
   do _ <- raise_for_status r;
   Ok r)%result.

(** What lines 42-48 read from a dataset when no step raises. *)
Definition decode_dataset (data : NcDataset) : result RawVariableSet :=
  (do us <- first_cells data "U50M";
   do vs <- first_cells data "V50M";
   do ts <- first_cells data "T2M";
   do ps <- first_cells data "PS";
   do dates <- decode_time data;
   Ok (mk_rvs us vs ts ps dates))%result.

(** The set of a manifest line whose source is retrieved, opened and read
    to the end; [None] for every other line. *)
Definition decoded_source (output_dir url : string) : option RawVariableSet :=
  match fetch_result url (os_path_join output_dir (file_name_of url)) with
  | Ok data =>
      match decode_dataset data with
      | Ok r => Some r
      | Raise _ => None
      end
  | Raise _ => None
  end.

(** A manifest line whose source is read to the end or fails before any
    accumulator is extended. *)
Definition clean (output_dir url : string) : Prop :=
  match fetch_result url (os_path_join output_dir (file_name_of url)) with
  | Ok data =>
      (exists r, decode_dataset data = Ok r)
      \/ exists e, first_cells data "U50M" = Raise e
  | Raise _ => True
  end.

(** A manifest line whose source raises at the second comprehension, after
    [u_50] received at least one sample. *)
Definition fails_after_u_50 (output_dir url : string) : Prop :=
  exists data us e,
    fetch_result url (os_path_join output_dir (file_name_of url)) = Ok data
    /\ first_cells data "U50M" = Ok us
    /\ us <> []
    /\ first_cells data "V50M" = Raise e.

(** A set that the table assembler accepts: one length, no negative
    temperature or pressure, timestamps within the ranges of [datetime]. *)
Definition acceptable (r : RawVariableSet) : Prop :=
  rvs_aligned r
  /\ no_negative (rv_T2M r) /\ no_negative (rv_PS r)
  /\ Forall (fun dt => valid_datetime dt = true) (rv_DateTimes r).

(** ** One manifest line, as the statements about the manifest read it *)

(** The name of the artifact of a manifest line: the text at offsets 108
    to 116 of the line, stripped of surrounding whitespace, followed by the
    fixed suffix. *)
Definition artifact_name (line : string) : string :=
  (strip (slice 108 116 line) ++ "-site.nc4")%string.

(** How lines 36-50 end for a manifest line, whatever the state: they run
    to the end, or raise the first exception of retrieving, persisting,
    opening or extracting. *)
Definition source_outcome (output_dir line : string) : result unit :=
  (do data <- fetch_result line
                (os_path_join output_dir (artifact_name line));
   do _ <- decode_dataset data;
   Ok tt)%result.

(** What the turn of a manifest line adds to what the run has done: the
    request to the stripped line and, when the turn raised, the failure
    report under the name of the line's own artifact. *)
Definition source_events (output_dir line : string) : list event :=
  Requested (strip line)
  :: match source_outcome output_dir line with
     | Ok _ => []
     | Raise e => [Failed (artifact_name line) e]
     end.

(** What the turn of a manifest line does to the disk: nothing when the
    retrieval fails or the artifact cannot be created; otherwise the payload
    goes to the path of the line's own artifact, and that path is deleted
    when the turn runs to the end. *)
Definition source_disk (output_dir line : string)
    (disk : gmap string string) : gmap string string :=
  let path := os_path_join output_dir (artifact_name line) in
  match retrieval line with
  | Ok r =>
      if writable path then
        match source_outcome output_dir line with
        | Ok _ => delete path disk
        | Raise _ => <[path := content r]> disk
        end
      else disk
  | Raise _ => disk
  end.

(** ** Facts about the density model *)

Lemma any_lt_zero_false (arr : ndarray) :
  any (lt_zero arr) = false <-> no_negative arr.
Proof.
  unfold any, lt_zero, no_negative.
  induction arr as [|x arr IH]; simpl.
  - split; [constructor | reflexivity].
  - rewrite orb_false_iff, IH. unfold id. split.
    + intros [Hx Harr]. by constructor.
    + intros Hall. inversion Hall; subst. by split.
Qed.

Lemma any_lt_zero_true (arr : ndarray) :
  any (lt_zero arr) = true <-> has_negative arr.
Proof.
  unfold any, lt_zero, has_negative.
  induction arr as [|x arr IH]; simpl.
  - split; [discriminate | intros Hex; inversion Hex].
  - rewrite orb_true_iff, IH. unfold id. split.
    + intros [Hx | Harr]; [by left | by right].
    + intros Hex. inversion Hex; subst; [by left | by right].
Qed.

Lemma no_negative_np_full (n : nat) : no_negative (np_full n 0.5).
Proof.
  unfold no_negative, np_full. induction n; simpl; by constructor.
Qed.

Lemma no_negative_not_has (arr : ndarray) :
  no_negative arr -> ~ has_negative arr.
Proof.
  intros Hno Hhas. apply any_lt_zero_false in Hno.
  apply any_lt_zero_true in Hhas. congruence.
Qed.

Lemma broadcast_same (f : float -> float -> float) (a b : ndarray) :
  length a = length b -> broadcast f a b = Ok (zip_with f a b).
Proof. intros Hlen. unfold broadcast. by rewrite decide_True. Qed.

(** Arithmetic on arrays raises the shape error or nothing. *)
Lemma broadcast_raise (f : float -> float -> float) (a b : ndarray) (e : exn) :
  broadcast f a b = Raise e -> e = ValueError broadcast_msg.
Proof.
  unfold broadcast. destruct (decide (length a = length b)); [discriminate|].
  destruct a as [|x [|x' a]], b as [|y [|y' b]]; intros Heq;
    solve [discriminate | by inversion Heq].
Qed.

Lemma lookup_map {A B : Type} (f : A -> B) (l : list A) (i : nat) :
  map f l !! i = match l !! i with Some a => Some (f a) | None => None end.
Proof.
  revert i. induction l as [|a l IH]; intros [|i]; simpl; auto.
Qed.

Lemma lookup_zip_with_some {A B C : Type} (f : A -> B -> C)
    (la : list A) (lb : list B) (i : nat) (a : A) (b : B) :
  la !! i = Some a -> lb !! i = Some b ->
  zip_with f la lb !! i = Some (f a b).
Proof.
  revert lb i. induction la as [|a0 la IH]; intros [|b0 lb] [|i];
    simpl; try discriminate.
  - intros [= ->] [= ->]. reflexivity.
  - apply IH.
Qed.

(** The arithmetic of lines 18-21 on arrays of one length. *)
Lemma density_arithmetic (T P RH : ndarray) :
  length P = length T -> length RH = length T ->
  exists rho,
    (do humid <- array_mul RH
                   (scalar_mul 0.0000205 (np_exp (scalar_mul 0.0631846 T)));
     do inner <- array_sub (div_scalar P R_const)
                   (mul_scalar humid (1 / R_const - 1 / Rw_const)%float);
     array_mul (scalar_div 1 T) inner)%result = Ok rho
    /\ length rho = length T
    /\ forall i t p h,
         T !! i = Some t -> P !! i = Some p -> RH !! i = Some h ->
         rho !! i = Some (density_formula t p h).
Proof.
  intros HP HRH.
  unfold array_mul, array_sub, scalar_mul, np_exp, div_scalar, mul_scalar,
    scalar_div.
  rewrite broadcast_same by (by rewrite !length_map). simpl.
  rewrite broadcast_same
    by (by rewrite !length_map, length_zip_with, !length_map; lia). simpl.
  rewrite broadcast_same
    by (by rewrite !length_map, !length_zip_with, !length_map,
             length_zip_with, !length_map; lia).
  eexists. split; [reflexivity|]. split.
  - rewrite !length_zip_with, !length_map, length_zip_with, !length_map. lia.
  - intros i t p h Ht Hp Hh.
    erewrite lookup_zip_with_some; [reflexivity | |].
    + by rewrite lookup_map, Ht.
    + erewrite lookup_zip_with_some; [reflexivity | |].
      * by rewrite lookup_map, Hp.
      * rewrite lookup_map. erewrite lookup_zip_with_some; [reflexivity | |].
        -- exact Hh.
        -- by rewrite !lookup_map, Ht.
Qed.

Lemma lookup_np_full (n i : nat) (v : float) :
  i < n -> np_full n v !! i = Some v.
Proof.
  unfold np_full. revert i. induction n as [|n IH]; intros [|i] Hi;
    simpl; try lia; [done|].
  apply IH. lia.
Qed.

(** The density model with the humidity left out, on columns of one length
    without a negative element. *)
Lemma compute_air_density_default (T P : ndarray) :
  length P = length T -> no_negative T -> no_negative P ->
  exists rho,
    compute_air_density T P None = Ok rho
    /\ length rho = length T
    /\ forall i t p,
         T !! i = Some t -> P !! i = Some p ->
         rho !! i = Some (density_formula t p 0.5).
Proof.
  intros HP HT HPn.
  pose proof (no_negative_np_full (length T)) as HRHn.
  unfold compute_air_density, rel_humidity_of.
  apply any_lt_zero_false in HT, HPn, HRHn. rewrite HT, HPn, HRHn. simpl.
  destruct (density_arithmetic T P (np_full (length T) 0.5))
    as (rho & Hrho & Hlen & Hform);
    [done | by (unfold np_full; rewrite repeat_length) |].
  exists rho. split; [done|]. split; [done|].
  intros i t p Ht Hp. apply (Hform i t p); try done.
  apply lookup_np_full. by apply lookup_lt_Some in Ht.
Qed.

(** C3: on arrays of one length without a negative element the density
    model returns, for every index, the closed form of the specification
    ([Rd = 287.05], [Rw = 461.5]); being a function of its arguments, it
    returns the same array at every call. *)
Theorem compute_air_density_closed_form (T P RH : ndarray) :
  length P = length T -> length RH = length T ->
  no_negative T -> no_negative P -> no_negative RH ->
  exists rho,
    compute_air_density T P (Some RH) = Ok rho
    /\ length rho = length T
    /\ forall i t p h,
         T !! i = Some t -> P !! i = Some p -> RH !! i = Some h ->
         rho !! i = Some (density_formula t p h).
Proof.
  intros HP HRH HT HPn HRHn.
  unfold compute_air_density, rel_humidity_of.
  apply any_lt_zero_false in HT, HPn, HRHn. rewrite HT, HPn, HRHn. simpl.
  by apply density_arithmetic.
Qed.

Lemma compute_air_density_checked (T P : ndarray) (H : option ndarray) :
  no_negative T -> no_negative P -> no_negative (rel_humidity_of T H) ->
  compute_air_density T P H <> Raise InvalidInputError.
Proof.
  intros HT HP HRH. unfold compute_air_density.
  apply any_lt_zero_false in HT, HP, HRH. rewrite HT, HP, HRH. simpl.
  unfold array_mul, array_sub.
  destruct (broadcast _ (rel_humidity_of T H) _) as [humid|e] eqn:E1; simpl.
  2: { apply broadcast_raise in E1. subst e. discriminate. }
  destruct (broadcast _ (div_scalar P R_const) _) as [inner|e] eqn:E2; simpl.
  2: { apply broadcast_raise in E2. subst e. discriminate. }
  intros E3. apply broadcast_raise in E3. discriminate.
Qed.

Lemma compute_air_density_rejects (T P : ndarray) (H : option ndarray) :
  has_negative T \/ has_negative P \/ has_negative (rel_humidity_of T H) ->
  compute_air_density T P H = Raise InvalidInputError.
Proof.
  intros Hneg. unfold compute_air_density.
  assert (any (lt_zero T) || any (lt_zero P)
          || any (lt_zero (rel_humidity_of T H)) = true) as ->; [|reflexivity].
  rewrite !orb_true_iff, !any_lt_zero_true.
  destruct Hneg as [HT | [HP | HRH]]; [by left; left | by left; right | by right].
Qed.

(** C4: the density model raises the error of line 14 exactly when some
    element of the temperature, the pressure or the humidity column (the
    defaulted one when the caller passed none) is below zero; the three
    single-column cases of the specification and the call without a humidity
    argument are instances. *)
Theorem compute_air_density_raises_iff_negative :
  (forall (T P : ndarray) (H : option ndarray),
     compute_air_density T P H = Raise InvalidInputError <->
     has_negative T \/ has_negative P \/ has_negative (rel_humidity_of T H))
  /\ compute_air_density [(-1.0)%float] [101325.0%float] (Some [0.5%float])
     = Raise InvalidInputError
  /\ compute_air_density [280.0%float] [(-101325.0)%float] (Some [0.5%float])
     = Raise InvalidInputError
  /\ compute_air_density [280.0%float] [101325.0%float] (Some [(-0.5)%float])
     = Raise InvalidInputError
  /\ compute_air_density [(-1.0)%float] [101325.0%float] None
     = Raise InvalidInputError.
Proof.
  split; [|repeat split; reflexivity].
  intros T P H. split; [|apply compute_air_density_rejects].
  intros Hraise.
  destruct (any (lt_zero T)) eqn:ET;
    [left; by apply any_lt_zero_true|].
  destruct (any (lt_zero P)) eqn:EP;
    [right; left; by apply any_lt_zero_true|].
  destruct (any (lt_zero (rel_humidity_of T H))) eqn:ER;
    [right; right; by apply any_lt_zero_true|].
  exfalso. revert Hraise.
  apply compute_air_density_checked; by apply any_lt_zero_false.
Qed.

Lemma all_half_is_np_full (H : ndarray) :
  Forall (fun h => h = 0.5%float) H -> H = np_full (length H) 0.5.
Proof.
  unfold np_full. induction 1 as [|h H Hh _ IH]; simpl; [reflexivity|].
  by rewrite Hh, <- IH.
Qed.

(** C5: leaving the humidity argument out gives the result of passing a
    humidity array of the temperature's length whose every element is
    0.5. *)
Theorem compute_air_density_default_humidity (T P H : ndarray) :
  length H = length T ->
  Forall (fun h => h = 0.5%float) H ->
  compute_air_density T P None = compute_air_density T P (Some H).
Proof.
  intros Hlen Hall. apply all_half_is_np_full in Hall.
  unfold compute_air_density, rel_humidity_of.
  by rewrite Hall, Hlen.
Qed.

(** C10: a temperature of zero passes the validation of line 13, which
    only tests for elements below zero, and the division [1 / T[i]] of
    line 18 is then carried out on it unguarded: on [temperature = [0.0]]
    the model raises only for a negative pressure, and otherwise returns
    the product of [1 / 0], which is infinity, with the bracket of the
    formula. *)
Theorem compute_air_density_zero_temperature :
  (0 <? 0)%float = false
  /\ (1 / 0)%float = infinity
  /\ forall p : float,
       compute_air_density [0%float] [p] None
       = if (p <? 0)%float then Raise InvalidInputError
         else Ok [((1 / 0) *
                   (p / 287.05
                    - 0.5 * (0.0000205 * exp (0.0631846 * 0))
                      * (1 / 287.05 - 1 / 461.5)))%float].
Proof.
  split; [reflexivity|]. split; [reflexivity|].
  intros p. unfold compute_air_density. simpl.
  change ((0 <? 0)%float) with false.
  change ((0.5 <? 0)%float) with false. simpl.
  destruct (p <? 0)%float; reflexivity.
Qed.

(** ** Facts about the text form of calendar values *)

Ltac lia_div := zify; Z.to_euclidean_division_equations; lia.

(** A property checked on every number below a bound holds below it. *)
Lemma below_by_enumeration (p : N -> bool) (bound : nat) :
  forallb p (map N.of_nat (seq 0 bound)) = true ->
  forall n : N, (n < N.of_nat bound)%N -> p n = true.
Proof.
  intros Hall n Hn. rewrite forallb_forall in Hall. apply Hall.
  apply in_map_iff. exists (N.to_nat n). split; [apply N2Nat.id|].
  apply in_seq. lia.
Qed.

Lemma zero_pad_2 (n : N) : (n < 100)%N -> zero_pad 2 n = two_digits n.
Proof.
  intros Hn. apply String.eqb_eq.
  apply (below_by_enumeration
           (fun k => String.eqb (zero_pad 2 k) (two_digits k)) 100);
    [vm_compute; reflexivity | exact Hn].
Qed.

Lemma zero_pad_4 (n : N) : (n < 10000)%N -> zero_pad 4 n = four_digits n.
Proof.
  intros Hn. apply String.eqb_eq.
  apply (below_by_enumeration
           (fun k => String.eqb (zero_pad 4 k) (four_digits k)) 10000);
    [vm_compute; reflexivity | exact Hn].
Qed.

Lemma digit_value_char (d : N) :
  (d < 10)%N -> digit_value (digit_char d) = Some d.
Proof.
  intros Hd.
  assert (match digit_value (digit_char d) with
          | Some v => N.eqb v d
          | None => false
          end = true) as Hchk.
  { apply (below_by_enumeration
             (fun k => match digit_value (digit_char k) with
                       | Some v => N.eqb v k
                       | None => false
                       end) 10); [vm_compute; reflexivity | exact Hd]. }
  destruct (digit_value (digit_char d)) as [v|]; [|discriminate].
  apply N.eqb_eq in Hchk. by subst.
Qed.

Lemma digit_char_value (c : ascii) (d : N) :
  digit_value c = Some d -> digit_char d = c /\ (d < 10)%N.
Proof.
  unfold digit_value, digit_char.
  destruct ((48 <=? N_of_ascii c) && (N_of_ascii c <=? 57))%N eqn:E;
    [|discriminate].
  intros [= <-]. apply andb_true_iff in E as [Hlo Hhi].
  apply N.leb_le in Hlo, Hhi. split; [|lia].
  replace (48 + (N_of_ascii c - 48))%N with (N_of_ascii c) by lia.
  apply ascii_N_embedding.
Qed.

Lemma two_digits_value (n : N) :
  (n < 100)%N ->
  digits_value 0 [digit_char (n / 10); digit_char (n mod 10)] = Some n.
Proof.
  intros Hn. simpl.
  rewrite !digit_value_char by
    (try apply N.mod_lt; try (apply N.Div0.div_lt_upper_bound); lia).
  f_equal. pose proof (N.div_mod n 10). lia.
Qed.

Lemma digits_value_2_pad (n : N) :
  (n < 100)%N ->
  exists c1 c2,
    zero_pad 2 n = String c1 (String c2 EmptyString)
    /\ digits_value 0 [c1; c2] = Some n.
Proof.
  intros Hn. exists (digit_char (n / 10)), (digit_char (n mod 10)).
  split; [by apply zero_pad_2 | by apply two_digits_value].
Qed.

Lemma digits_value_4_pad (n : N) :
  (n < 10000)%N ->
  exists c1 c2 c3 c4,
    zero_pad 4 n = String c1 (String c2 (String c3 (String c4 EmptyString)))
    /\ digits_value 0 [c1; c2; c3; c4] = Some n.
Proof.
  intros Hn.
  exists (digit_char (n / 1000)), (digit_char (n / 100 mod 10)),
    (digit_char (n mod 100 / 10)), (digit_char (n mod 100 mod 10)).
  split; [by apply zero_pad_4|]. simpl.
  rewrite !digit_value_char by lia_div.
  f_equal. lia_div.
Qed.

Lemma digits_value_2_inv (c1 c2 : ascii) (n : N) :
  digits_value 0 [c1; c2] = Some n ->
  zero_pad 2 n = String c1 (String c2 EmptyString)
  /\ is_digit c1 = true /\ is_digit c2 = true.
Proof.
  unfold is_digit. simpl.
  destruct (digit_value c1) as [v1|] eqn:E1; [|discriminate].
  destruct (digit_value c2) as [v2|] eqn:E2; [|discriminate].
  intros [= Hn].
  apply digit_char_value in E1 as [<- H1], E2 as [<- H2].
  split; [|done].
  rewrite zero_pad_2 by lia. unfold two_digits.
  by replace (n / 10)%N with v1 by lia_div;
     replace (n mod 10)%N with v2 by lia_div.
Qed.

Lemma digits_value_4_inv (c1 c2 c3 c4 : ascii) (n : N) :
  digits_value 0 [c1; c2; c3; c4] = Some n ->
  zero_pad 4 n = String c1 (String c2 (String c3 (String c4 EmptyString)))
  /\ forallb is_digit [c1; c2; c3; c4] = true.
Proof.
  unfold is_digit. cbn -[N.mul N.add].
  destruct (digit_value c1) as [v1|] eqn:E1; [|discriminate].
  destruct (digit_value c2) as [v2|] eqn:E2; [|discriminate].
  destruct (digit_value c3) as [v3|] eqn:E3; [|discriminate].
  destruct (digit_value c4) as [v4|] eqn:E4; [|discriminate].
  intros [= Hn].
  apply digit_char_value in E1 as [<- H1], E2 as [<- H2],
    E3 as [<- H3], E4 as [<- H4].
  split; [|done].
  rewrite zero_pad_4 by lia. unfold four_digits, two_digits.
  by replace (n / 1000)%N with v1 by lia_div;
     replace (n / 100 mod 10)%N with v2 by lia_div;
     replace (n mod 100 / 10)%N with v3 by lia_div;
     replace (n mod 100 mod 10)%N with v4 by lia_div.
Qed.

Lemma is_char_eq (c k : ascii) : is_char c k = true -> c = k.
Proof. apply Ascii.eqb_eq. Qed.

Lemma days_in_month_le (y m : N) : (days_in_month y m <= 31)%N.
Proof.
  unfold days_in_month.
  repeat match goal with
         | |- context [match ?x with _ => _ end] => destruct x
         end; lia.
Qed.

Lemma valid_fields_bounds (y m d hh mi ss : N) :
  valid_fields y m d hh mi ss = true ->
  (y < 10000 /\ m < 100 /\ d < 100 /\ hh < 100 /\ mi < 100 /\ ss < 100)%N.
Proof.
  unfold valid_fields. rewrite !andb_true_iff.
  rewrite !N.leb_le, !N.ltb_lt. pose proof (days_in_month_le y m). lia.
Qed.

(** Reading back what [strftime] wrote gives the fields that were
    written. *)
Lemma pd_to_datetime_format_fields (y m d hh mi ss : N) :
  valid_fields y m d hh mi ss = true ->
  pd_to_datetime (format_fields datetime_format y m d hh mi ss)
  = Ok (mk_Timestamp y m d hh mi ss).
Proof.
  intros Hvalid.
  destruct (valid_fields_bounds _ _ _ _ _ _ Hvalid)
    as (Hy & Hm & Hd & Hhh & Hmi & Hss).
  destruct (digits_value_4_pad y Hy) as (y1 & y2 & y3 & y4 & Ey & Vy).
  destruct (digits_value_2_pad m Hm) as (m1 & m2 & Em & Vm).
  destruct (digits_value_2_pad d Hd) as (d1 & d2 & Ed & Vd).
  destruct (digits_value_2_pad hh Hhh) as (h1 & h2 & Eh & Vh).
  destruct (digits_value_2_pad mi Hmi) as (n1 & n2 & En & Vn).
  destruct (digits_value_2_pad ss Hss) as (s1 & s2 & Es & Vs).
  unfold datetime_format. cbn [format_fields directive Ascii.eqb Bool.eqb].
  rewrite Ey, Em, Ed, Eh, En, Es. cbv [String.append].
  unfold pd_to_datetime. cbn [list_ascii_of_string].
  rewrite Vy, Vm, Vd, Vh, Vn, Vs, Hvalid. reflexivity.
Qed.

(** A text that [pd.to_datetime] accepts has the shape
    [YYYY-MM-DD HH:MM:SS], and formatting the value read gives the text
    back. *)
Lemma pd_to_datetime_accepts (s : string) (ts : Timestamp) :
  pd_to_datetime s = Ok ts ->
  ts_strftime datetime_format ts = s /\ is_ymd_hms s = true.
Proof.
  unfold pd_to_datetime, is_ymd_hms.
  destruct (list_ascii_of_string s)
    as [|y1 [|y2 [|y3 [|y4 [|a [|m1 [|m2 [|b [|d1 [|d2 [|c [|h1 [|h2 [|e
        [|n1 [|n2 [|f [|s1 [|s2 [|x rest]]]]]]]]]]]]]]]]]]]] eqn:Es;
    try discriminate.
  destruct (digits_value 0 [y1; y2; y3; y4]) as [y|] eqn:Vy; [|discriminate].
  destruct (digits_value 0 [m1; m2]) as [m|] eqn:Vm; [|discriminate].
  destruct (digits_value 0 [d1; d2]) as [d|] eqn:Vd; [|discriminate].
  destruct (digits_value 0 [h1; h2]) as [hh|] eqn:Vh; [|discriminate].
  destruct (digits_value 0 [n1; n2]) as [mi|] eqn:Vn; [|discriminate].
  destruct (digits_value 0 [s1; s2]) as [ss|] eqn:Vs; [|discriminate].
  destruct (is_char a "-" && is_char b "-" && is_char c " "
            && is_char e ":" && is_char f ":"
            && valid_fields y m d hh mi ss) eqn:Echk; [|discriminate].
  intros [= <-].
  rewrite !andb_true_iff in Echk.
  destruct Echk as [[[[[Ha Hb] Hc] He] Hf] Hvalid].
  apply digits_value_4_inv in Vy as [Py Dy].
  apply digits_value_2_inv in Vm as (Pm & Dm1 & Dm2).
  apply digits_value_2_inv in Vd as (Pd & Dd1 & Dd2).
  apply digits_value_2_inv in Vh as (Ph & Dh1 & Dh2).
  apply digits_value_2_inv in Vn as (Pn & Dn1 & Dn2).
  apply digits_value_2_inv in Vs as (Ps & Ds1 & Ds2).
  split.
  - rewrite <- (string_of_list_ascii_of_string s), Es.
    unfold ts_strftime, datetime_format.
    cbn [format_fields directive Ascii.eqb Bool.eqb
           ts_year ts_month ts_day ts_hour ts_minute ts_second].
    rewrite Py, Pm, Pd, Ph, Pn, Ps. cbv [String.append string_of_list_ascii].
    apply is_char_eq in Ha, Hb, Hc, He, Hf. by subst.
  - cbn [forallb] in Dy |- *. rewrite !andb_true_iff in Dy.
    destruct Dy as (Dy1 & Dy2 & Dy3 & Dy4 & _).
    rewrite Dy1, Dy2, Dy3, Dy4, Dm1, Dm2, Dd1, Dd2, Dh1, Dh2, Dn1, Dn2,
      Ds1, Ds2, Ha, Hb, Hc, He, Hf. reflexivity.
Qed.

(** ** Facts about the table assembler *)

Lemma mapM_result_Forall2 {A B : Type} (f : A -> result B)
    (l : list A) (l' : list B) :
  mapM_result f l = Ok l' <-> Forall2 (fun a b => f a = Ok b) l l'.
Proof.
  revert l'. induction l as [|a l IH]; intros l'; simpl.
  - split; [intros [= <-]; constructor | by inversion 1].
  - destruct (f a) as [b|e] eqn:Ea; simpl.
    + destruct (mapM_result f l) as [bs|e] eqn:El; simpl.
      * split.
        -- intros [= <-]. constructor; [done | by apply IH].
        -- inversion 1 as [|? b' ? bs' Hb Hbs]; subst.
           apply IH in Hbs. congruence.
      * split; [discriminate|].
        inversion 1 as [|? b' ? bs' Hb Hbs]; subst.
        apply IH in Hbs. discriminate.
    + split; [discriminate|].
      inversion 1 as [|? b' ? bs' Hb Hbs]; subst. congruence.
Qed.

Lemma read_back_valid (dt : datetime) :
  valid_datetime dt = true -> read_back dt = Ok (stamp_of dt).
Proof.
  unfold valid_datetime, read_back, strftime, stamp_of.
  intros [Hv _]%andb_true_iff. by apply pd_to_datetime_format_fields.
Qed.

Lemma read_back_all_valid (D : list datetime) :
  Forall (fun dt => valid_datetime dt = true) D ->
  mapM_result read_back D = Ok (map stamp_of D).
Proof.
  intros Hall. apply mapM_result_Forall2.
  induction Hall as [|dt D Hdt _ IH]; simpl; constructor;
    [by apply read_back_valid | done].
Qed.

Lemma read_back_texts (D : list datetime) (stamps : list Timestamp) :
  mapM_result read_back D = Ok stamps ->
  map (ts_strftime datetime_format) stamps = map (strftime datetime_format) D
  /\ length stamps = length D.
Proof.
  intros HF%mapM_result_Forall2.
  induction HF as [|dt ts D stamps Hdt _ [IH1 IH2]]; simpl; [done|].
  apply pd_to_datetime_accepts in Hdt as [-> _]. by rewrite IH1, IH2.
Qed.

Lemma strftime_shape (D : list datetime) (stamps : list Timestamp) :
  mapM_result read_back D = Ok stamps ->
  Forall (fun t => is_ymd_hms t = true) (map (strftime datetime_format) D).
Proof.
  intros HF%mapM_result_Forall2.
  induction HF as [|dt ts D stamps Hdt _ IH]; simpl; constructor; [|done].
  by apply pd_to_datetime_accepts in Hdt as [_ ?].
Qed.

(** Lines 58-63 step by step: the timestamps are read back, the lengths
    are compared, the density model runs, and the [.dt] accessor of line 63
    needs a datetime column, which an empty series does not give; each of
    the four can raise. *)
Lemma assemble_table_unfold (D : list datetime) (u v T P : list float) :
  assemble_table D u v T P =
  match mapM_result read_back D with
  | Ok stamps =>
      if same_lengths D u v T P then
        match D with
        | [] => Raise (AttributeError "dt")
        | _ :: _ =>
            match compute_air_density T P None with
            | Ok dens => Ok (finished_table D u v T P dens)
            | Raise e => Raise e
            end
        end
      else Raise (ValueError same_length_msg)
  | Raise e => Raise e
  end.
Proof.
  unfold assemble_table. fold read_back.
  destruct (mapM_result read_back D) as [stamps|e] eqn:ED; [|reflexivity].
  destruct (read_back_texts _ _ ED) as [Htexts Hlen].
  unfold same_lengths, pd_DataFrame. rewrite <- Hlen.
  cbn [rbind forallb col_length snd].
  destruct (Nat.eqb (length P) (length stamps)) eqn:EP; [|reflexivity].
  destruct (Nat.eqb (length u) (length stamps)) eqn:Eu; [|reflexivity].
  destruct (Nat.eqb (length v) (length stamps)) eqn:Ev; [|reflexivity].
  destruct (Nat.eqb (length T) (length stamps)) eqn:ET; [|reflexivity].
  apply Nat.eqb_eq in EP, Eu, Ev, ET.
  destruct D as [|d D], stamps as [|t stamps]; try discriminate Hlen.
  - destruct P, u, v, T; try discriminate. reflexivity.
  - destruct P as [|p P], u as [|u0 u], v as [|v0 v], T as [|t0 T];
      try discriminate.
    cbn -[compute_air_density ts_strftime strftime].
    destruct (compute_air_density (t0 :: T) (p :: P) None) as [dens|e];
      [|reflexivity].
    cbn -[ts_strftime strftime]. unfold finished_table.
    cbn [map] in Htexts |- *. by rewrite Htexts.
Qed.

Lemma same_lengths_true (D : list datetime) (u v T P : list float) :
  same_lengths D u v T P = true <->
  length P = length D /\ length u = length D /\ length v = length D
  /\ length T = length D.
Proof.
  unfold same_lengths. rewrite !andb_true_iff, !Nat.eqb_eq.
  split; [intros [[[? ?] ?] ?] | intros (? & ? & ? & ?)]; done.
Qed.

(** What a returning call of [create_dataframe] has done. *)
Lemma create_dataframe_returns (D : list datetime) (u v T P : list float)
    (save_path : string) (s s' : State) (df : DataFrame) :
  create_dataframe D u v T P save_path s = (Ok df, s')
  <->
  assemble_table D u v T P = Ok df
  /\ writable save_path = true
  /\ s' = log (Saved save_path)
            (set_fs (<[save_path := csv_text df]> (fs s)) s).
Proof.
  unfold create_dataframe, abind, lift, to_csv, aret.
  destruct (assemble_table D u v T P) as [df0|e].
  - destruct (writable save_path).
    + split.
      * intros [= -> <-]. done.
      * intros ([= ->] & _ & ->). done.
    + split; [discriminate | intros (_ & ? & _); discriminate].
  - split; [discriminate | intros (? & _); discriminate].
Qed.

Lemma assemble_table_returns (D : list datetime) (u v T P : list float)
    (df : DataFrame) :
  assemble_table D u v T P = Ok df ->
  exists dens,
    compute_air_density T P None = Ok dens
    /\ df = finished_table D u v T P dens
    /\ same_lengths D u v T P = true
    /\ Forall (fun t => is_ymd_hms t = true)
         (map (strftime datetime_format) D).
Proof.
  rewrite assemble_table_unfold.
  destruct (mapM_result read_back D) as [stamps|e] eqn:ED; [|discriminate].
  destruct (same_lengths D u v T P); [|discriminate].
  destruct D as [|d D]; [discriminate|].
  destruct (compute_air_density T P None) as [dens|e]; [|discriminate].
  intros [= <-]. exists dens. repeat split. by eapply strftime_shape.
Qed.

Lemma wind_speed_lookup (u v : list float) (i : nat) (ui vi : float) :
  u !! i = Some ui -> v !! i = Some vi ->
  np_sqrt (series_add (pow2 u) (pow2 v)) !! i = Some (wind_speed ui vi).
Proof.
  intros Hu Hv. unfold np_sqrt, series_add, pow2, wind_speed.
  rewrite lookup_map.
  erewrite lookup_zip_with_some; [reflexivity | |];
    rewrite lookup_map; by (rewrite Hu || rewrite Hv).
Qed.

(** C6: in the table that [create_dataframe] returns, the wind speed of
    every row is the square root of the sum of the squares of that row's
    [u_50] and [v_50]; for 3.0 and 4.0 it is 5.0. *)
Theorem create_dataframe_wind_speed (D : list datetime)
    (u v T P : list float) (save_path : string) (s s' : State)
    (df : DataFrame) :
  create_dataframe D u v T P save_path s = (Ok df, s')
  ->
  (exists us vs ws,
     df_lookup df "u_50" = Some (FloatCol us)
     /\ df_lookup df "v_50" = Some (FloatCol vs)
     /\ df_lookup df "ws_50m" = Some (FloatCol ws)
     /\ length ws = nrows df
     /\ forall i, i < nrows df ->
          exists ui vi,
            us !! i = Some ui /\ vs !! i = Some vi
            /\ ws !! i = Some (wind_speed ui vi))
  /\ wind_speed 3.0 4.0 = 5.0%float.
Proof.
  intros (Hdf & _ & _)%create_dataframe_returns.
  apply assemble_table_returns in Hdf as (dens & _ & -> & Hlen & _).
  apply same_lengths_true in Hlen as (HP & Hu & Hv & HT).
  split; [|reflexivity].
  exists u, v, (np_sqrt (series_add (pow2 u) (pow2 v))).
  repeat split.
  - unfold np_sqrt, series_add, pow2. cbn [nrows finished_table col_length].
    rewrite length_map, length_zip_with, !length_map. lia.
  - cbn [nrows finished_table col_length]. rewrite length_map.
    intros i Hi.
    destruct (lookup_lt_is_Some_2 u i) as [ui Hui]; [lia|].
    destruct (lookup_lt_is_Some_2 v i) as [vi Hvi]; [lia|].
    exists ui, vi. repeat split; try done. by apply wind_speed_lookup.
Qed.

(** C7, amended: for accumulated series of one length [N] with at least
    one sample, whose temperatures and pressures hold no negative value, and
    a destination that can be written, [create_dataframe] returns a table
    of [N] rows whose columns are, in this order, datetime,
    surface_pressure, u_50, v_50, temp_2m, dens_50m and ws_50m, and whose
    datetime column holds for every sample a text of the shape
    YYYY-MM-DD HH:MM:SS, with nothing after the seconds. *)
Theorem create_dataframe_table (N : nat) (D : list datetime)
    (u v T P : list float) (save_path : string) (s : State) :
  0 < N ->
  length D = N -> length u = N -> length v = N -> length T = N ->
  length P = N ->
  Forall (fun dt => valid_datetime dt = true) D ->
  no_negative T -> no_negative P ->
  writable save_path = true ->
  exists df s',
    create_dataframe D u v T P save_path s
    = (Ok df, s')
    /\ nrows df = N
    /\ Forall (fun kc => col_length kc.2 = N) df
    /\ column_names df = output_columns
    /\ exists texts,
         df_lookup df "datetime" = Some (StrCol texts)
         /\ length texts = N
         /\ Forall (fun t => is_ymd_hms t = true) texts.
Proof.
  intros HN HD Hu Hv HT HP Hvalid HTn HPn Hw.
  destruct (compute_air_density_default T P) as (dens & Hdens & Hlen & _);
    [lia | done | done |].
  assert (assemble_table D u v T P = Ok (finished_table D u v T P dens))
    as Hdf.
  { rewrite assemble_table_unfold, (read_back_all_valid D Hvalid).
    assert (same_lengths D u v T P = true) as ->
        by (apply same_lengths_true; lia).
    destruct D as [|d D]; [cbn in HD; lia|].
    by rewrite Hdens. }
  eexists _, _. split; [by apply create_dataframe_returns|].
  split; [by cbn; rewrite length_map|].
  split.
  { unfold finished_table, np_sqrt, series_add, pow2.
    repeat constructor; cbn [snd col_length];
      rewrite ?length_map, ?length_zip_with, ?length_map; lia. }
  split; [reflexivity|].
  eexists. split; [reflexivity|]. split; [by rewrite length_map|].
  eapply strftime_shape, read_back_all_valid, Hvalid.
Qed.

(** C8: the table that [create_dataframe] returns keeps the accumulation
    order.  The five input columns are the accumulated sequences
    themselves, sample after sample, the datetime column is the text of the
    accumulated timestamps in their order, and the two derived columns are
    computed row by row from the samples of that row; no step sorts. *)
Theorem create_dataframe_row_order (D : list datetime)
    (u v T P : list float) (save_path : string) (s s' : State)
    (df : DataFrame) :
  create_dataframe D u v T P save_path s = (Ok df, s')
  ->
  nrows df = length D
  /\ df_lookup df "datetime"
     = Some (StrCol (map (strftime datetime_format) D))
  /\ df_lookup df "surface_pressure" = Some (FloatCol P)
  /\ df_lookup df "u_50" = Some (FloatCol u)
  /\ df_lookup df "v_50" = Some (FloatCol v)
  /\ df_lookup df "temp_2m" = Some (FloatCol T)
  /\ exists dens ws,
       df_lookup df "dens_50m" = Some (FloatCol dens)
       /\ df_lookup df "ws_50m" = Some (FloatCol ws)
       /\ forall i ui vi ti pi,
            u !! i = Some ui -> v !! i = Some vi ->
            T !! i = Some ti -> P !! i = Some pi ->
            dens !! i = Some (density_formula ti pi 0.5)
            /\ ws !! i = Some (wind_speed ui vi).
Proof.
  intros (Hdf & _ & _)%create_dataframe_returns.
  apply assemble_table_returns in Hdf as (dens & Hdens & -> & Hlen & _).
  apply same_lengths_true in Hlen as (HP & Hu & Hv & HT).
  split; [by cbn; rewrite length_map|].
  do 5 (split; [reflexivity|]).
  exists dens, (np_sqrt (series_add (pow2 u) (pow2 v))).
  do 2 (split; [reflexivity|]).
  intros i ui vi ti pi Hui Hvi Hti Hpi.
  split; [|by apply wind_speed_lookup].
  assert (no_negative T /\ no_negative P) as [HTn HPn].
  { rewrite <- !any_lt_zero_false. revert Hdens. unfold compute_air_density.
    destruct (any (lt_zero T)); [discriminate|].
    destruct (any (lt_zero P)); [discriminate|]. done. }
  destruct (compute_air_density_default T P) as (dens' & Hdens' & _ & Hform);
    [lia | done | done |].
  rewrite Hdens in Hdens'. injection Hdens' as <-.
  by apply Hform.
Qed.

(** ** Facts about the source decoder *)

Lemma fetch_source_run (url full_path : string) (s : State) :
  fetch_source url full_path s =
  let s1 := log (Requested (strip url)) s in
  match requests_get (strip url) with
  | Ok r =>
      match raise_for_status r with
      | Ok _ =>
          if writable full_path
          then (nc_open (content r),
                set_fs (<[full_path := content r]> (fs s1)) s1)
          else (Raise (OSError full_path), s1)
      | Raise e => (Raise e, s1)
      end
  | Raise e => (Raise e, s1)
  end.
Proof.
  unfold fetch_source, abind, http_get, lift, write_file, Dataset. cbn zeta.
  destruct (requests_get (strip url)) as [r|e]; [|reflexivity].
  destruct (raise_for_status r) as [[]|e]; [|reflexivity].
  destruct (writable full_path); [|reflexivity].
  cbn [fs set_fs]. by rewrite lookup_insert_eq.
Qed.

Lemma fetch_source_result (url full_path : string) (s : State) :
  (fetch_source url full_path s).1 = fetch_result url full_path.
Proof.
  rewrite fetch_source_run. unfold fetch_result. cbn zeta.
  destruct (requests_get (strip url)) as [r|e]; [|reflexivity].
  cbn [rbind].
  destruct (raise_for_status r) as [[]|e]; [|reflexivity].
  by destruct (writable full_path).
Qed.

Lemma fetch_source_accumulators (url full_path : string) (s : State) :
  same_accumulators s (fetch_source url full_path s).2.
Proof.
  rewrite fetch_source_run. cbn zeta.
  destruct (requests_get (strip url)) as [r|e]; [|done].
  destruct (raise_for_status r) as [[]|e]; [|done].
  by destruct (writable full_path).
Qed.

Lemma fetch_source_requests (url full_path : string) (s : State) :
  trace (fetch_source url full_path s).2
  = (trace s ++ [Requested (strip url)])%list.
Proof.
  rewrite fetch_source_run. cbn zeta.
  destruct (requests_get (strip url)) as [r|e]; [|done].
  destruct (raise_for_status r) as [[]|e]; [|done].
  by destruct (writable full_path).
Qed.

(** Extraction touches the accumulators only. *)
Lemma extract_source_frame (data : NcDataset) (s : State) :
  fs (extract_source data s).2 = fs s
  /\ trace (extract_source data s).2 = trace s.
Proof.
  unfold extract_source, abind, lift, extend_u_50, extend_v_50, extend_T2M,
    extend_PS, extend_DateTimes.
  destruct (first_cells data "U50M"); [|done].
  destruct (first_cells data "V50M"); [|done].
  destruct (first_cells data "T2M"); [|done].
  destruct (first_cells data "PS"); [|done].
  by destruct (decode_time data).
Qed.

Lemma extract_source_first_fails (data : NcDataset) (s : State) (e : exn) :
  first_cells data "U50M" = Raise e ->
  extract_source data s = (Raise e, s).
Proof.
  intros He. unfold extract_source, abind, lift. by rewrite He.
Qed.

Lemma extract_source_ok (data : NcDataset) (s : State)
    (us vs ts ps : list float) (dates : list datetime) :
  first_cells data "U50M" = Ok us -> first_cells data "V50M" = Ok vs ->
  first_cells data "T2M" = Ok ts -> first_cells data "PS" = Ok ps ->
  decode_time data = Ok dates ->
  extract_source data s
  = (Ok tt, mk_State (u_50 s ++ us) (v_50 s ++ vs) (T2M s ++ ts)
              (PS s ++ ps) (DateTimes s ++ dates) (fs s) (trace s)).
Proof.
  intros Hu Hv Ht Hp Hd.
  unfold extract_source, abind, lift, extend_u_50, extend_v_50, extend_T2M,
    extend_PS, extend_DateTimes.
  by rewrite Hu, Hv, Ht, Hp, Hd.
Qed.

Lemma process_source_fetch_fails (output_dir url : string) (s : State)
    (e : exn) :
  fetch_result url (os_path_join output_dir (file_name_of url)) = Raise e ->
  same_accumulators s (process_source output_dir url s).
Proof.
  intros Hres. unfold process_source, try_body, abind. cbn zeta.
  pose proof (fetch_source_result url
                (os_path_join output_dir (file_name_of url)) s) as Hfst.
  pose proof (fetch_source_accumulators url
                (os_path_join output_dir (file_name_of url)) s) as Hacc.
  destruct (fetch_source url _ s) as [[data|e'] s1]; simpl in *.
  - congruence.
  - exact Hacc.
Qed.

Lemma aligned_same_accumulators (s s' : State) :
  same_accumulators s s' -> aligned s -> aligned s'.
Proof.
  unfold same_accumulators, aligned.
  intros (-> & -> & -> & -> & ->). done.
Qed.

Lemma same_accumulators_log (ev : event) (s : State) :
  same_accumulators s (log ev s).
Proof. done. Qed.

Lemma same_accumulators_trans (s1 s2 s3 : State) :
  same_accumulators s1 s2 -> same_accumulators s2 s3 ->
  same_accumulators s1 s3.
Proof.
  unfold same_accumulators.
  intros (? & ? & ? & ? & ?) (? & ? & ? & ? & ?). repeat split; congruence.
Qed.

Lemma os_remove_accumulators (path : string) (s : State) :
  same_accumulators s (os_remove path s).2.
Proof. unfold os_remove. by destruct (fs s !! path). Qed.

(** One turn of the loop, by the outcome of lines 36-41. *)
Lemma process_source_run (output_dir url : string) (s : State) :
  let name := file_name_of url in
  let path := os_path_join output_dir name in
  let s1 := (fetch_source url path s).2 in
  process_source output_dir url s =
  match fetch_result url path with
  | Ok data =>
      match extract_source data s1 with
      | (Ok _, s2) =>
          match os_remove path s2 with
          | (Ok _, s3) => s3
          | (Raise e, s3) => log (Failed name e) s3
          end
      | (Raise e, s2) => log (Failed name e) s2
      end
  | Raise e => log (Failed name e) s1
  end.
Proof.
  cbn zeta. unfold process_source, try_body, abind. cbn zeta.
  rewrite <- (fetch_source_result url _ s).
  destruct (fetch_source url _ s) as [[data|e] s1]; cbn [fst snd]; [|reflexivity].
  destruct (extract_source data s1) as [[[]|e] s2]; [|reflexivity].
  by destruct (os_remove _ s2) as [[[]|e] s3].
Qed.

Lemma process_source_first_fails (output_dir url : string) (s : State)
    (data : NcDataset) (e : exn) :
  fetch_result url (os_path_join output_dir (file_name_of url)) = Ok data ->
  first_cells data "U50M" = Raise e ->
  same_accumulators s (process_source output_dir url s).
Proof.
  intros Hres HU. rewrite process_source_run. cbn zeta. rewrite Hres.
  rewrite (extract_source_first_fails _ _ _ HU).
  eapply same_accumulators_trans; [apply fetch_source_accumulators|].
  apply same_accumulators_log.
Qed.

Lemma process_source_aligned (output_dir url : string) (s : State) :
  delivers output_dir url -> aligned s ->
  aligned (process_source output_dir url s).
Proof.
  unfold delivers. intros Hd Hs.
  destruct (fetch_result url _) as [data|e] eqn:Hres.
  - destruct Hd as [(us & vs & ts & ps & dates & HU & HV & HT & HP & HD
                     & Lv & Lt & Lp & Ld) | [e HU]].
    2: { eapply aligned_same_accumulators; [|exact Hs].
         by eapply process_source_first_fails. }
    rewrite process_source_run. cbn zeta. rewrite Hres.
    rewrite (extract_source_ok _ _ _ _ _ _ _ HU HV HT HP HD).
    pose proof (fetch_source_accumulators url
                  (os_path_join output_dir (file_name_of url)) s)
      as (Eu & Ev & Et & Ep & Ed).
    match goal with
    | |- context [os_remove ?p ?st] =>
        pose proof (os_remove_accumulators p st) as Hrm;
        destruct (os_remove p st) as [[[]|e] s3]
    end;
      cbn [snd] in Hrm;
      (eapply aligned_same_accumulators;
       [first [exact Hrm
              | eapply same_accumulators_trans;
                [exact Hrm | apply same_accumulators_log]]|]);
      unfold aligned in *; cbn [u_50 v_50 T2M PS DateTimes];
      rewrite Eu, Ev, Et, Ep, Ed, !length_app; lia.
  - eapply aligned_same_accumulators; [|exact Hs].
    by eapply process_source_fetch_fails.
Qed.

(** X13: a source that fails during retrieval, while its payload is
    persisted or opened, or at the extraction of its first variable leaves
    all five accumulators as they were; and when every source of a run
    either fails that early or decodes into five sequences of one length,
    the five accumulators have one length after each source. *)
Theorem accumulators_after_each_source (output_dir : string) :
  (forall (url : string) (s : State),
     let path := os_path_join output_dir (file_name_of url) in
     (exists e, fetch_result url path = Raise e)
     \/ (exists data e,
           fetch_result url path = Ok data
           /\ first_cells data "U50M" = Raise e) ->
     same_accumulators s (process_source output_dir url s))
  /\ (forall (urls : list string) (s : State),
        Forall (delivers output_dir) urls -> aligned s ->
        forall k : nat, aligned (process_sources output_dir (take k urls) s)).
Proof.
  split.
  - intros url s path [[e He] | (data & e & Hres & HU)].
    + by eapply process_source_fetch_fails.
    + by eapply process_source_first_fails.
  - intros urls s Hall. revert s.
    induction Hall as [|url urls Hurl _ IH]; intros s Hs [|k];
      cbn [take process_sources fold_left]; try done.
    apply IH. by apply process_source_aligned.
Qed.

(** X11: the temporary artifact of a source whose payload was persisted, at
    the end of its turn: gone when the body of the [try] ran to its end,
    still there with the payload in it when opening or extracting raised.
    The deletion of line 50 is reached on the successful path only. *)
Lemma temporary_artifact_after_source (output_dir url : string)
    (s : State) (r : Response) :
  let path := os_path_join output_dir (file_name_of url) in
  persisted url path r ->
  fs (process_source output_dir url s) !! path
  = match (try_body url path s).1 with
    | Ok _ => None
    | Raise _ => Some (content r)
    end.
Proof.
  intros path (Hget & Hstatus & Hw).
  unfold process_source, try_body, abind. cbn zeta. fold path.
  rewrite fetch_source_run. cbn zeta. rewrite Hget, Hstatus, Hw.
  destruct (nc_open (content r)) as [data|e]; cbn [fst snd].
  2: { cbn. apply lookup_insert_eq. }
  match goal with
  | |- context [extract_source data ?st] =>
      pose proof (extract_source_frame data st) as [Hfs _];
      destruct (extract_source data st) as [[[]|e] s2]
  end; cbn [fst snd] in *.
  2: { cbn. rewrite Hfs. cbn. apply lookup_insert_eq. }
  unfold os_remove. rewrite Hfs. cbn [fs set_fs log].
  rewrite lookup_insert_eq. cbn. apply lookup_delete_eq.
Qed.

Lemma requests_app (tr tr' : list event) :
  requests (tr ++ tr') = (requests tr ++ requests tr')%list.
Proof. unfold requests. apply flat_map_app. Qed.

Lemma os_remove_frame (path : string) (s : State) :
  trace (os_remove path s).2 = trace s
  /\ forall p, p <> path -> fs (os_remove path s).2 !! p = fs s !! p.
Proof.
  unfold os_remove. destruct (fs s !! path); cbn; [|done].
  split; [done|]. intros p Hp. by apply lookup_delete_ne.
Qed.

Lemma fetch_source_fs (url full_path : string) (s : State) (p : string) :
  p <> full_path -> fs (fetch_source url full_path s).2 !! p = fs s !! p.
Proof.
  intros Hp. rewrite fetch_source_run. cbn zeta.
  destruct (requests_get (strip url)) as [r|e]; [|done].
  destruct (raise_for_status r) as [[]|e]; [|done].
  destruct (writable full_path); [|done].
  cbn. by apply lookup_insert_ne.
Qed.

(** What one turn of the loop adds to the trace: its request, then at most
    one failure report, which carries the name of the temporary artifact. *)
Lemma process_source_trace (output_dir url : string) (s : State) :
  exists tail,
    trace (process_source output_dir url s)
    = (trace s ++ Requested (strip url) :: tail)%list
    /\ (tail = [] \/ exists e, tail = [Failed (file_name_of url) e]).
Proof.
  rewrite process_source_run. cbn zeta.
  pose proof (fetch_source_requests url
                (os_path_join output_dir (file_name_of url)) s) as Hreq.
  destruct (fetch_result url _) as [data|e].
  - match goal with
    | |- context [extract_source data ?st] =>
        pose proof (extract_source_frame data st) as [_ Hex];
        destruct (extract_source data st) as [[[]|e] s2]
    end; cbn [snd] in Hex.
    + match goal with
      | |- context [os_remove ?p ?st] =>
          pose proof (os_remove_frame p st) as [Hrm _];
          destruct (os_remove p st) as [[[]|e] s3]
      end; cbn [snd] in Hrm.
      * exists []. split; [|by left]. by rewrite Hrm, Hex, Hreq.
      * exists [Failed (file_name_of url) e]. split; [|right; by exists e].
        cbn [trace log]. rewrite Hrm, Hex, Hreq. by rewrite <- app_assoc.
    + exists [Failed (file_name_of url) e]. split; [|right; by exists e].
      cbn [trace log]. rewrite Hex, Hreq. by rewrite <- app_assoc.
  - exists [Failed (file_name_of url) e]. split; [|right; by exists e].
    cbn [trace log]. rewrite Hreq. by rewrite <- app_assoc.
Qed.

(** One turn of the loop touches no file but its temporary artifact. *)
Lemma process_source_fs (output_dir url : string) (s : State) (p : string) :
  p <> os_path_join output_dir (file_name_of url) ->
  fs (process_source output_dir url s) !! p = fs s !! p.
Proof.
  intros Hp. rewrite process_source_run. cbn zeta.
  pose proof (fetch_source_fs url _ s p Hp) as Hfetch.
  destruct (fetch_result url _) as [data|e]; [|done].
  match goal with
  | |- context [extract_source data ?st] =>
      pose proof (extract_source_frame data st) as [Hex _];
      destruct (extract_source data st) as [[[]|e] s2]
  end; cbn [snd] in Hex.
  - match goal with
    | |- context [os_remove ?q ?st] =>
        pose proof (os_remove_frame q st) as [_ Hrm];
        destruct (os_remove q st) as [[[]|e] s3]
    end; cbn [snd] in Hrm; cbn; rewrite (Hrm p Hp), Hex; exact Hfetch.
  - cbn. rewrite Hex. exact Hfetch.
Qed.

Lemma process_sources_requests (output_dir : string) (urls : list string)
    (s : State) :
  requests (trace (process_sources output_dir urls s))
  = (requests (trace s) ++ map strip urls)%list.
Proof.
  revert s. induction urls as [|url urls IH]; intros s;
    cbn [process_sources fold_left map].
  - by rewrite app_nil_r.
  - fold (process_sources output_dir urls (process_source output_dir url s)).
    rewrite IH.
    destruct (process_source_trace output_dir url s) as (tail & -> & Htail).
    rewrite requests_app. cbn [requests flat_map].
    destruct Htail as [-> | [e ->]]; cbn; by rewrite <- app_assoc.
Qed.

Lemma process_sources_failures (output_dir : string) (urls : list string)
    (s : State) (name : string) (e : exn) :
  Failed name e ∈ trace (process_sources output_dir urls s) ->
  Failed name e ∈ trace s
  \/ exists url, url ∈ urls /\ name = file_name_of url.
Proof.
  revert s. induction urls as [|url urls IH]; intros s;
    cbn [process_sources fold_left]; [by left|].
  fold (process_sources output_dir urls (process_source output_dir url s)).
  intros [Hin | (url' & Hurl' & ->)]%IH.
  - destruct (process_source_trace output_dir url s) as (tail & Htr & Htail).
    rewrite Htr in Hin.
    apply elem_of_app in Hin as [Hin | Hin]; [by left|].
    apply elem_of_cons in Hin as [Hin | Hin]; [discriminate|].
    destruct Htail as [-> | [e' ->]].
    + by apply elem_of_nil in Hin.
    + apply list_elem_of_singleton in Hin. injection Hin as -> ->.
      right. exists url. split; [apply elem_of_cons; by left | done].
  - right. exists url'. split; [apply elem_of_cons; by right | done].
Qed.

Lemma process_sources_fs (output_dir : string) (urls : list string)
    (s : State) (p : string) :
  (forall url, url ∈ urls ->
               p <> os_path_join output_dir (file_name_of url)) ->
  fs (process_sources output_dir urls s) !! p = fs s !! p.
Proof.
  revert s. induction urls as [|url urls IH]; intros s Hp;
    cbn [process_sources fold_left]; [done|].
  fold (process_sources output_dir urls (process_source output_dir url s)).
  rewrite IH.
  - apply process_source_fs, Hp, elem_of_cons. by left.
  - intros url' Hurl'. apply Hp, elem_of_cons. by right.
Qed.

(** What [create_dataframe] leaves behind, returning or raising. *)
Lemma create_dataframe_state (D : list datetime) (u v T P : list float)
    (save_path : string) (s : State) :
  let s' := (create_dataframe D u v T P save_path s).2 in
  requests (trace s') = requests (trace s)
  /\ (forall name e, Failed name e ∈ trace s' -> Failed name e ∈ trace s)
  /\ (forall p, p <> save_path -> fs s' !! p = fs s !! p).
Proof.
  unfold create_dataframe, abind, lift, to_csv, aret. cbn zeta.
  destruct (assemble_table D u v T P) as [df|e]; [|done].
  destruct (writable save_path); [|done].
  cbn. split; [|split].
  - rewrite requests_app. cbn. by rewrite app_nil_r.
  - intros name e [Hin | Hin]%elem_of_app; [done|].
    apply list_elem_of_singleton in Hin. discriminate.
  - intros p Hp. by apply lookup_insert_ne.
Qed.

Lemma try_body_trace (url full_path : string) (s : State) :
  trace (try_body url full_path s).2
  = (trace s ++ [Requested (strip url)])%list.
Proof.
  unfold try_body, abind.
  pose proof (fetch_source_requests url full_path s) as Hreq.
  destruct (fetch_source url full_path s) as [[data|e] s1]; [|exact Hreq].
  pose proof (extract_source_frame data s1) as [_ Hex].
  destruct (extract_source data s1) as [[[]|e] s2]; cbn [snd] in *;
    [|by rewrite Hex].
  destruct (os_remove_frame full_path s2) as [Hrm _].
  by rewrite Hrm, Hex.
Qed.

Lemma file_name_of_artifact (line : string) :
  file_name_of line = artifact_name line.
Proof. reflexivity. Qed.

(** Extraction raises exactly when one of its five reads raises. *)
Lemma extract_source_outcome (data : NcDataset) (s : State) :
  (extract_source data s).1 = (do _ <- decode_dataset data; Ok tt)%result.
Proof.
  unfold extract_source, decode_dataset, abind, lift, extend_u_50,
    extend_v_50, extend_T2M, extend_PS, extend_DateTimes.
  destruct (first_cells data "U50M"); [|done].
  destruct (first_cells data "V50M"); [|done].
  destruct (first_cells data "T2M"); [|done].
  destruct (first_cells data "PS"); [|done].
  by destruct (decode_time data).
Qed.

(** Lines 36-50 on any state: how they end, and the disk they leave. *)
Lemma try_body_run (output_dir url : string) (s : State) :
  let path := os_path_join output_dir (file_name_of url) in
  (try_body url path s).1 = source_outcome output_dir url
  /\ fs (try_body url path s).2 = source_disk output_dir url (fs s).
Proof.
  cbn zeta. change (file_name_of url) with (artifact_name url).
  unfold source_disk, source_outcome, retrieval, fetch_result. cbn zeta.
  unfold try_body, abind. rewrite fetch_source_run. cbn zeta.
  destruct (requests_get (strip url)) as [r|e]; [|done].
  cbn [rbind].
  destruct (raise_for_status r) as [[]|e]; [|done].
  cbn [rbind].
  destruct (writable _); [|done].
  destruct (nc_open (content r)) as [data|e]; [|done].
  cbn [rbind].
  match goal with
  | |- context [extract_source data ?st] =>
      pose proof (extract_source_frame data st) as [Hfs _];
      pose proof (extract_source_outcome data st) as Hout;
      destruct (extract_source data st) as [[[]|e] s2]
  end; cbn [fst snd] in Hfs, Hout; rewrite <- Hout.
  - unfold os_remove. rewrite Hfs. cbn [fs set_fs log].
    rewrite lookup_insert_eq. cbn. by rewrite delete_insert_eq.
  - cbn. by rewrite Hfs.
Qed.

(** One turn of the loop: what it adds to the trace and does to the
    disk. *)
Lemma process_source_line (output_dir url : string) (s : State) :
  trace (process_source output_dir url s)
  = (trace s ++ source_events output_dir url)%list
  /\ fs (process_source output_dir url s)
     = source_disk output_dir url (fs s).
Proof.
  unfold process_source, source_events. cbn zeta.
  destruct (try_body_run output_dir url s) as [Hout Hfs].
  pose proof (try_body_trace url
                (os_path_join output_dir (file_name_of url)) s) as Htr.
  rewrite <- Hout, <- Hfs.
  change (artifact_name url) with (file_name_of url).
  destruct (try_body url _ s) as [[[]|e] s1]; cbn [fst snd log trace fs] in *.
  - by rewrite Htr.
  - split; [|done]. rewrite Htr. by rewrite <- app_assoc.
Qed.

Lemma process_sources_lines (output_dir : string) (urls : list string)
    (s : State) :
  trace (process_sources output_dir urls s)
  = (trace s ++ flat_map (source_events output_dir) urls)%list
  /\ fs (process_sources output_dir urls s)
     = foldl (fun disk line => source_disk output_dir line disk) (fs s) urls.
Proof.
  revert s. induction urls as [|url urls IH]; intros s;
    cbn [process_sources fold_left flat_map foldl].
  - by rewrite app_nil_r.
  - fold (process_sources output_dir urls (process_source output_dir url s)).
    destruct (IH (process_source output_dir url s)) as [-> ->].
    destruct (process_source_line output_dir url s) as [-> ->].
    by rewrite <- app_assoc.
Qed.

(** What [create_dataframe] adds to the trace and does to the disk. *)
Lemma create_dataframe_run (D : list datetime) (u v T P : list float)
    (save_path : string) (s : State) :
  let run := create_dataframe D u v T P save_path s in
  trace run.2
  = (trace s ++ match run.1 with
                | Ok _ => [Saved save_path]
                | Raise _ => []
                end)%list
  /\ fs run.2 = match run.1 with
                | Ok df => <[save_path := csv_text df]> (fs s)
                | Raise _ => fs s
                end.
Proof.
  unfold create_dataframe, abind, lift, to_csv, aret. cbn zeta.
  destruct (assemble_table D u v T P) as [df|e];
    [|by rewrite app_nil_r].
  destruct (writable save_path); [done|]. by rewrite app_nil_r.
Qed.

(** C9, amended: a run drops the first line of the manifest and takes
    every following line as one source, in manifest order.  What the run
    has done at its end is, line after line, the request to the line
    stripped of surrounding whitespace, followed, exactly when the turn of
    that line raised, by the failure report under the name of that line's
    own artifact; the disk at its end is the disk at its start after the
    turn of each line, in manifest order, has stored the payload at the path
    of its own artifact and deleted it again when it ran to the end.  The
    name of a line's artifact is the text at offsets 108 to 116 of the line,
    stripped of surrounding whitespace, followed by [-site.nc4].  Only a
    run that returns adds the saved table and its report. *)
Theorem fetch_and_process_data_manifest
    (file_path output_dir save_path : string) (s : State) (text : string) :
  fs s !! file_path = Some text ->
  let lines := drop 1 (readlines text) in
  let run := fetch_and_process_data file_path output_dir save_path s in
  requests (trace run.2) = (requests (trace s) ++ map strip lines)%list
  /\ trace run.2
     = (trace s
        ++ flat_map (source_events output_dir) lines
        ++ match run.1 with
           | Ok _ => [Saved save_path]
           | Raise _ => []
           end)%list
  /\ fs run.2
     = (let disk :=
          foldl (fun disk line => source_disk output_dir line disk)
            (fs s) lines in
        match run.1 with
        | Ok df => <[save_path := csv_text df]> disk
        | Raise _ => disk
        end).
Proof.
  intros Hmanifest. unfold fetch_and_process_data. rewrite Hmanifest.
  cbn zeta.
  set (urls := drop 1 (readlines text)).
  set (s0 := mk_State [] [] [] [] [] (fs s) (trace s)).
  set (s1 := process_sources output_dir urls s0).
  destruct (create_dataframe_state (DateTimes s1) (u_50 s1) (v_50 s1)
              (T2M s1) (PS s1) save_path s1) as (Hreq & _ & _).
  destruct (create_dataframe_run (DateTimes s1) (u_50 s1) (v_50 s1)
              (T2M s1) (PS s1) save_path s1) as (Htr & Hfs).
  destruct (process_sources_lines output_dir urls s0) as [Htr1 Hfs1].
  fold s1 in Htr1, Hfs1.
  split; [|split].
  - rewrite Hreq. unfold s1. by rewrite process_sources_requests.
  - rewrite Htr, Htr1. by rewrite <- app_assoc.
  - by rewrite Hfs, Hfs1.
Qed.

(** ** Further facts about one turn of the loop *)

(** X1: one turn of the loop adds to the trace the request for the stripped
    line and then, exactly when the body of the [try] raised, one failure
    report that carries the derived file name and the exception; a source
    that ran to the end is not reported. *)
Theorem process_source_report (output_dir url : string) (s : State) :
  trace (process_source output_dir url s)
  = (trace s
     ++ Requested (strip url)
        :: match (try_body url
                    (os_path_join output_dir (file_name_of url)) s).1 with
           | Ok _ => []
           | Raise e => [Failed (file_name_of url) e]
           end)%list.
Proof.
  unfold process_source. cbn zeta.
  pose proof (try_body_trace url
                (os_path_join output_dir (file_name_of url)) s) as Htr.
  destruct (try_body url _ s) as [[[]|e] s1]; cbn [fst snd log trace] in *.
  - exact Htr.
  - rewrite Htr. by rewrite <- app_assoc.
Qed.

Lemma accumulated_same (s s' : State) :
  same_accumulators s s' <-> accumulated s' = accumulated s.
Proof.
  unfold same_accumulators, accumulated. split.
  - intros (-> & -> & -> & -> & ->). reflexivity.
  - intros [= -> -> -> -> ->]. done.
Qed.

(** One set extends another: each sequence of the first starts the
    corresponding sequence of the second. *)
Lemma extract_source_grows (data : NcDataset) (s : State) :
  exists r, accumulated (extract_source data s).2
            = rvs_app (accumulated s) r.
Proof.
  unfold extract_source, abind, lift, extend_u_50, extend_v_50, extend_T2M,
    extend_PS, extend_DateTimes, accumulated, rvs_app.
  destruct (first_cells data "U50M") as [us|?]; cbn;
    [|exists rvs_empty; cbn; by rewrite !app_nil_r].
  destruct (first_cells data "V50M") as [vs|?]; cbn;
    [|exists (mk_rvs us [] [] [] []); cbn; by rewrite !app_nil_r].
  destruct (first_cells data "T2M") as [ts|?]; cbn;
    [|exists (mk_rvs us vs [] [] []); cbn; by rewrite !app_nil_r].
  destruct (first_cells data "PS") as [ps|?]; cbn;
    [|exists (mk_rvs us vs ts [] []); cbn; by rewrite !app_nil_r].
  destruct (decode_time data) as [dates|?]; cbn;
    [|exists (mk_rvs us vs ts ps []); cbn; by rewrite !app_nil_r].
  by exists (mk_rvs us vs ts ps dates).
Qed.

Lemma process_source_grows (output_dir url : string) (s : State) :
  exists r, accumulated (process_source output_dir url s)
            = rvs_app (accumulated s) r.
Proof.
  rewrite process_source_run. cbn zeta.
  pose proof (fetch_source_accumulators url
                (os_path_join output_dir (file_name_of url)) s) as Hf.
  apply accumulated_same in Hf.
  destruct (fetch_result url _) as [data|e].
  2: { exists rvs_empty.
       match goal with
       | |- accumulated (log _ ?st) = _ =>
           change (accumulated (log (Failed (file_name_of url) e) st))
             with (accumulated st)
       end.
       rewrite Hf. unfold rvs_app, accumulated. cbn.
       by rewrite !app_nil_r. }
  match goal with
  | |- context [extract_source data ?st] =>
      destruct (extract_source_grows data st) as [r Hr];
      destruct (extract_source data st) as [[[]|e] s2]
  end; cbn [snd] in Hr.
  - match goal with
    | |- context [os_remove ?p ?st] =>
        pose proof (os_remove_accumulators p st) as Hrm;
        destruct (os_remove p st) as [[[]|e] s3]
    end; cbn [snd] in Hrm; apply accumulated_same in Hrm;
      exists r; [|change (accumulated (log _ s3)) with (accumulated s3)];
      by rewrite Hrm, Hr, Hf.
  - exists r. change (accumulated (log _ s2)) with (accumulated s2).
    by rewrite Hr, Hf.
Qed.

(** X2: whatever happens to a source, the samples accumulated before it
    stay where they are: after any number of turns each of the five
    accumulators starts with what it held before. *)
Theorem accumulators_only_grow (output_dir : string) (urls : list string)
    (s : State) :
  let s' := process_sources output_dir urls s in
  u_50 s `prefix_of` u_50 s'
  /\ v_50 s `prefix_of` v_50 s'
  /\ T2M s `prefix_of` T2M s'
  /\ PS s `prefix_of` PS s'
  /\ DateTimes s `prefix_of` DateTimes s'.
Proof.
  cbn zeta. revert s. induction urls as [|url urls IH]; intros s;
    cbn [process_sources fold_left]; [done|].
  fold (process_sources output_dir urls (process_source output_dir url s)).
  destruct (IH (process_source output_dir url s))
    as (Hu & Hv & Ht & Hp & Hd).
  destruct (process_source_grows output_dir url s) as [r Hr].
  unfold accumulated, rvs_app in Hr. cbn in Hr.
  injection Hr as Eu Ev Et Ep Ed.
  repeat split; (etrans; [|eassumption]);
    [rewrite Eu | rewrite Ev | rewrite Et | rewrite Ep | rewrite Ed];
    by apply prefix_app_r.
Qed.

Lemma retrieval_fetch_result (url full_path : string) (e : exn) :
  retrieval url = Raise e -> fetch_result url full_path = Raise e.
Proof.
  unfold retrieval, fetch_result.
  destruct (requests_get (strip url)) as [r|?]; cbn [rbind];
    [|by intros [= ->]].
  destruct (raise_for_status r) as [[]|?]; cbn [rbind];
    [done | by intros [= ->]].
Qed.

(** X3: when the request raises or the response carries an error status,
    the turn changes nothing but the trace: no file is created, no
    accumulator is extended, and the state is the old one with the request
    and the failure report added. *)
Theorem retrieval_failure_state (output_dir url : string) (s : State)
    (e : exn) :
  retrieval url = Raise e ->
  process_source output_dir url s
  = log (Failed (file_name_of url) e) (log (Requested (strip url)) s).
Proof.
  intros Hret. rewrite process_source_run. cbn zeta.
  rewrite (retrieval_fetch_result _ _ _ Hret).
  rewrite fetch_source_run. cbn zeta. revert Hret. unfold retrieval.
  destruct (requests_get (strip url)) as [r|?]; cbn [rbind snd].
  - destruct (raise_for_status r) as [[]|?]; cbn [rbind snd]; [done|].
    by intros [= ->].
  - by intros [= ->].
Qed.

Lemma fetch_result_ok (url full_path : string) (data : NcDataset) :
  fetch_result url full_path = Ok data ->
  exists r,
    requests_get (strip url) = Ok r /\ raise_for_status r = Ok tt
    /\ writable full_path = true /\ nc_open (content r) = Ok data.
Proof.
  unfold fetch_result.
  destruct (requests_get (strip url)) as [r|?]; cbn [rbind]; [|done].
  destruct (raise_for_status r) as [[]|?] eqn:Hstatus; cbn [rbind]; [|done].
  destruct (writable full_path) eqn:Hw; [|done].
  intros Hopen. exists r. by repeat split.
Qed.

Lemma extract_source_decoded (data : NcDataset) (s : State)
    (r : RawVariableSet) :
  decode_dataset data = Ok r ->
  extract_source data s
  = (Ok tt, mk_State (u_50 s ++ rv_u_50 r) (v_50 s ++ rv_v_50 r)
              (T2M s ++ rv_T2M r) (PS s ++ rv_PS r)
              (DateTimes s ++ rv_DateTimes r) (fs s) (trace s)).
Proof.
  unfold decode_dataset.
  destruct (first_cells data "U50M") as [us|?] eqn:HU; cbn [rbind]; [|done].
  destruct (first_cells data "V50M") as [vs|?] eqn:HV; cbn [rbind]; [|done].
  destruct (first_cells data "T2M") as [ts|?] eqn:HT; cbn [rbind]; [|done].
  destruct (first_cells data "PS") as [ps|?] eqn:HP; cbn [rbind]; [|done].
  destruct (decode_time data) as [dates|?] eqn:HD; cbn [rbind]; [|done].
  intros [= <-]. cbn. by apply extract_source_ok.
Qed.

(** X4: a source that is retrieved, opened and read to the end leaves
    exactly this state: each accumulator with the source's sequence
    appended, the disk as before but without a file at the temporary path,
    and the trace with the request added and no report. *)
Theorem decoded_source_state (output_dir url : string) (s : State)
    (data : NcDataset) (r : RawVariableSet) :
  let path := os_path_join output_dir (file_name_of url) in
  fetch_result url path = Ok data ->
  decode_dataset data = Ok r ->
  process_source output_dir url s
  = mk_State (u_50 s ++ rv_u_50 r) (v_50 s ++ rv_v_50 r)
      (T2M s ++ rv_T2M r) (PS s ++ rv_PS r)
      (DateTimes s ++ rv_DateTimes r)
      (delete path (fs s))
      (trace s ++ [Requested (strip url)]).
Proof.
  intros path Hres Hdec. rewrite process_source_run. cbn zeta. fold path.
  rewrite Hres, fetch_source_run. cbn zeta.
  destruct (fetch_result_ok _ _ _ Hres) as (resp & -> & -> & -> & _).
  cbn [snd]. rewrite (extract_source_decoded _ _ _ Hdec).
  unfold os_remove. cbn [fs set_fs log u_50 v_50 T2M PS DateTimes trace].
  rewrite lookup_insert_eq. unfold set_fs.
  cbn [fs u_50 v_50 T2M PS DateTimes trace].
  by rewrite delete_insert_eq.
Qed.

(** ** Further facts about the loop *)

Lemma rvs_app_empty_r (a : RawVariableSet) : rvs_app a rvs_empty = a.
Proof. destruct a. unfold rvs_app. cbn. by rewrite !app_nil_r. Qed.

Lemma rvs_app_assoc (a b c : RawVariableSet) :
  rvs_app (rvs_app a b) c = rvs_app a (rvs_app b c).
Proof. unfold rvs_app. cbn. by rewrite <- !app_assoc. Qed.

Lemma decode_dataset_first_fails (data : NcDataset) (e : exn) :
  first_cells data "U50M" = Raise e -> decode_dataset data = Raise e.
Proof. intros He. unfold decode_dataset. by rewrite He. Qed.

(** A clean source adds its set to the accumulators, or nothing. *)
Lemma process_source_clean (output_dir url : string) (s : State) :
  clean output_dir url ->
  accumulated (process_source output_dir url s)
  = rvs_app (accumulated s)
      (default rvs_empty (decoded_source output_dir url)).
Proof.
  unfold clean, decoded_source. intros Hclean.
  destruct (fetch_result url _) as [data|e] eqn:Hres.
  - destruct Hclean as [[r Hdec] | [e HU]].
    + rewrite Hdec. cbn [default].
      rewrite process_source_run. cbn zeta. rewrite Hres.
      rewrite (extract_source_decoded _ _ _ Hdec).
      pose proof (fetch_source_accumulators url
                    (os_path_join output_dir (file_name_of url)) s)
        as (Eu & Ev & Et & Ep & Ed).
      match goal with
      | |- context [os_remove ?p ?st] =>
          pose proof (os_remove_accumulators p st) as Hrm;
          destruct (os_remove p st) as [[[]|e] s3]
      end; cbn [snd] in Hrm; apply accumulated_same in Hrm;
        [|change (accumulated (log (Failed (file_name_of url) e) s3))
           with (accumulated s3)];
        rewrite Hrm; unfold accumulated, rvs_app;
        cbn [u_50 v_50 T2M PS DateTimes rv_u_50 rv_v_50 rv_T2M rv_PS
               rv_DateTimes];
        by rewrite Eu, Ev, Et, Ep, Ed.
    + rewrite (decode_dataset_first_fails _ _ HU). cbn [default].
      rewrite rvs_app_empty_r. apply accumulated_same.
      by eapply process_source_first_fails.
  - cbn [default]. rewrite rvs_app_empty_r. apply accumulated_same.
    by eapply process_source_fetch_fails.
Qed.

Lemma rvs_concat_omap_cons {A : Type} (f : A -> option RawVariableSet)
    (a : A) (l : list A) :
  rvs_concat (omap f (a :: l))
  = rvs_app (default rvs_empty (f a)) (rvs_concat (omap f l)).
Proof.
  cbn [omap list_omap]. destruct (f a) as [r|]; cbn [default]; [done|].
  destruct (rvs_concat (omap f l)). reflexivity.
Qed.

Lemma process_sources_clean (output_dir : string) (urls : list string)
    (s : State) :
  Forall (clean output_dir) urls ->
  accumulated (process_sources output_dir urls s)
  = rvs_app (accumulated s)
      (rvs_concat (omap (decoded_source output_dir) urls)).
Proof.
  intros Hall. revert s.
  induction Hall as [|url urls Hurl _ IH]; intros s.
  - cbn. by rewrite rvs_app_empty_r.
  - cbn [process_sources fold_left].
    fold (process_sources output_dir urls (process_source output_dir url s)).
    by rewrite IH, (process_source_clean _ _ _ Hurl), rvs_app_assoc,
         rvs_concat_omap_cons.
Qed.

Lemma rvs_concat_flat (l : list RawVariableSet) :
  rvs_concat l
  = mk_rvs (flat_map rv_u_50 l) (flat_map rv_v_50 l) (flat_map rv_T2M l)
      (flat_map rv_PS l) (flat_map rv_DateTimes l).
Proof.
  induction l as [|r l IH]; [reflexivity|].
  cbn [rvs_concat foldr flat_map]. fold (rvs_concat l). by rewrite IH.
Qed.

Lemma accumulation_order_aux (output_dir : string) (urls : list string)
    (s : State) :
  Forall (clean output_dir) urls ->
  let sets := omap (decoded_source output_dir) urls in
  let s' := process_sources output_dir urls s in
  u_50 s' = (u_50 s ++ flat_map rv_u_50 sets)%list
  /\ v_50 s' = (v_50 s ++ flat_map rv_v_50 sets)%list
  /\ T2M s' = (T2M s ++ flat_map rv_T2M sets)%list
  /\ PS s' = (PS s ++ flat_map rv_PS sets)%list
  /\ DateTimes s' = (DateTimes s ++ flat_map rv_DateTimes sets)%list.
Proof.
  intros Hall. cbn zeta.
  pose proof (process_sources_clean output_dir urls s Hall) as Hacc.
  rewrite rvs_concat_flat in Hacc.
  unfold accumulated, rvs_app in Hacc. cbn in Hacc.
  by injection Hacc as -> -> -> -> ->.
Qed.

(** X5: when every source of a run is read to the end or fails before any
    accumulator is extended, each accumulator ends as what it held before
    followed by the sequences of the sources that were read, in manifest
    order; the failed sources contribute nothing, so the accumulated length
    is the sum of the sample counts of the sources that were read. *)
Theorem accumulation_in_manifest_order (output_dir : string)
    (urls : list string) (s : State) :
  Forall (clean output_dir) urls ->
  let sets := omap (decoded_source output_dir) urls in
  let s' := process_sources output_dir urls s in
  u_50 s' = (u_50 s ++ flat_map rv_u_50 sets)%list
  /\ v_50 s' = (v_50 s ++ flat_map rv_v_50 sets)%list
  /\ T2M s' = (T2M s ++ flat_map rv_T2M sets)%list
  /\ PS s' = (PS s ++ flat_map rv_PS sets)%list
  /\ DateTimes s' = (DateTimes s ++ flat_map rv_DateTimes sets)%list
  /\ length (u_50 s')
     = length (u_50 s) + sum_list (map (fun r => length (rv_u_50 r)) sets).
Proof.
  intros Hall sets s'.
  destruct (accumulation_order_aux output_dir urls s Hall)
    as (Eu & Ev & Et & Ep & Ed).
  fold sets s' in Eu, Ev, Et, Ep, Ed.
  repeat split; try done.
  rewrite Eu, length_app. f_equal.
  clear. induction sets as [|r l IH]; [reflexivity|].
  cbn [flat_map map sum_list sum_list_with]. by rewrite length_app, IH.
Qed.

Lemma rvs_app_empty_l (a : RawVariableSet) : rvs_app rvs_empty a = a.
Proof. by destruct a. Qed.

Lemma rvs_aligned_app (a b : RawVariableSet) :
  rvs_aligned a -> rvs_aligned b -> rvs_aligned (rvs_app a b).
Proof.
  unfold rvs_aligned, rvs_app. cbn. rewrite !length_app. lia.
Qed.

Lemma delivers_clean (output_dir url : string) :
  delivers output_dir url ->
  clean output_dir url
  /\ rvs_aligned (default rvs_empty (decoded_source output_dir url)).
Proof.
  unfold delivers, clean, decoded_source.
  destruct (fetch_result url _) as [data|e]; [|by repeat split].
  intros [(us & vs & ts & ps & dates & HU & HV & HT & HP & HD
           & Lv & Lt & Lp & Ld) | [e HU]].
  - assert (decode_dataset data = Ok (mk_rvs us vs ts ps dates)) as Hdec
        by (unfold decode_dataset; by rewrite HU, HV, HT, HP, HD).
    rewrite Hdec. split; [left; by eexists | by repeat split].
  - rewrite (decode_dataset_first_fails _ _ HU).
    split; [right; by exists e | by repeat split].
Qed.

(** Over sources that deliver, every accumulator grows by one amount. *)
Lemma process_sources_delivers (output_dir : string) (urls : list string)
    (s : State) :
  Forall (delivers output_dir) urls ->
  exists r,
    accumulated (process_sources output_dir urls s)
    = rvs_app (accumulated s) r
    /\ rvs_aligned r.
Proof.
  intros Hall.
  exists (rvs_concat (omap (decoded_source output_dir) urls)). split.
  - apply process_sources_clean.
    eapply Forall_impl; [exact Hall|]. intros url Hurl.
    by apply delivers_clean.
  - induction Hall as [|url urls Hurl _ IH]; [by repeat split|].
    rewrite rvs_concat_omap_cons. apply rvs_aligned_app; [|exact IH].
    by apply delivers_clean.
Qed.

Lemma process_source_fails_after_u_50 (output_dir url : string) (s : State) :
  fails_after_u_50 output_dir url ->
  exists us,
    us <> []
    /\ accumulated (process_source output_dir url s)
       = rvs_app (accumulated s) (mk_rvs us [] [] [] []).
Proof.
  intros (data & us & e & Hres & HU & Hne & HV). exists us. split; [done|].
  rewrite process_source_run. cbn zeta. rewrite Hres.
  pose proof (fetch_source_accumulators url
                (os_path_join output_dir (file_name_of url)) s) as Hf.
  revert Hf.
  generalize (fetch_source url
                (os_path_join output_dir (file_name_of url)) s).2.
  intros s1 (Eu & Ev & Et & Ep & Ed).
  unfold extract_source, abind, lift, extend_u_50. rewrite HU, HV.
  unfold accumulated, rvs_app. cbn. rewrite Eu, Ev, Et, Ep, Ed.
  by rewrite !app_nil_r.
Qed.

Lemma create_dataframe_unequal (D : list datetime) (u v T P : list float)
    (save_path : string) (s : State) :
  length u <> length v ->
  exists e, create_dataframe D u v T P save_path s = (Raise e, s).
Proof.
  intros Hne. unfold create_dataframe, abind, lift.
  rewrite assemble_table_unfold.
  destruct (mapM_result read_back D) as [stamps|e]; [|by exists e].
  destruct (same_lengths D u v T P) eqn:Hlen; [|by eexists].
  apply same_lengths_true in Hlen as (_ & Hu & Hv & _). congruence.
Qed.

(** X6: one source that raises at its second comprehension, after [u_50]
    received a sample, costs the whole run its table: when the other
    sources of the manifest deliver, [u_50] ends longer than [v_50], the
    table assembler raises, nothing is saved, and the run ends in the
    state that the loop left. *)
Theorem late_failure_aborts_run (file_path output_dir save_path : string)
    (s : State) (text : string) (pre post : list string) (bad : string) :
  fs s !! file_path = Some text ->
  drop 1 (readlines text) = (pre ++ bad :: post)%list ->
  Forall (delivers output_dir) pre ->
  Forall (delivers output_dir) post ->
  fails_after_u_50 output_dir bad ->
  exists e,
    fetch_and_process_data file_path output_dir save_path s
    = (Raise e,
       process_sources output_dir (pre ++ bad :: post)
         (mk_State [] [] [] [] [] (fs s) (trace s))).
Proof.
  intros Hmanifest Hurls Hpre Hpost Hbad.
  unfold fetch_and_process_data. rewrite Hmanifest. cbn zeta. rewrite Hurls.
  set (s0 := mk_State [] [] [] [] [] (fs s) (trace s)).
  set (s1 := process_sources output_dir (pre ++ bad :: post) s0).
  apply create_dataframe_unequal.
  assert (s1 = process_sources output_dir post
                 (process_source output_dir bad
                    (process_sources output_dir pre s0))) as Hs1.
  { unfold s1, process_sources. by rewrite fold_left_app. }
  destruct (process_sources_delivers output_dir pre s0 Hpre)
    as (r1 & E1 & A1).
  destruct (process_source_fails_after_u_50 output_dir bad
              (process_sources output_dir pre s0) Hbad) as (us & Hne & E2).
  destruct (process_sources_delivers output_dir post
              (process_source output_dir bad
                 (process_sources output_dir pre s0)) Hpost)
    as (r3 & E3 & A3).
  rewrite <- Hs1 in E3. rewrite E2, E1 in E3.
  unfold accumulated, rvs_app in E3. cbn in E3.
  injection E3 as Eu Ev _ _ _. rewrite Eu, Ev, !length_app.
  destruct A1 as (L1 & _), A3 as (L3 & _). cbn [length].
  destruct us as [|x us]; [done|]. cbn [length]. lia.
Qed.

Lemma acceptable_concat (l : list RawVariableSet) :
  Forall acceptable l -> acceptable (rvs_concat l).
Proof.
  induction 1 as [|r l Hr _ IH].
  - repeat split; constructor.
  - cbn [rvs_concat foldr]. fold (rvs_concat l).
    destruct Hr as (Ha & Ht & Hp & Hd), IH as (Ha' & Ht' & Hp' & Hd').
    split; [by apply rvs_aligned_app|].
    unfold no_negative, rvs_app in *. cbn.
    repeat split; by apply Forall_app.
Qed.

Lemma create_dataframe_accepts (D : list datetime) (u v T P : list float)
    (save_path : string) (s : State) :
  D <> [] ->
  Forall (fun dt => valid_datetime dt = true) D ->
  same_lengths D u v T P = true ->
  no_negative T -> no_negative P ->
  writable save_path = true ->
  exists dens,
    create_dataframe D u v T P save_path s
    = (Ok (finished_table D u v T P dens),
       log (Saved save_path)
         (set_fs (<[save_path := csv_text (finished_table D u v T P dens)]>
                    (fs s)) s)).
Proof.
  intros Hne Hvalid Hlen HT HP Hw.
  pose proof Hlen as (LP & Lu & Lv & LT)%same_lengths_true.
  destruct (compute_air_density_default T P) as (dens & Hdens & _);
    [lia | done | done |].
  exists dens. apply create_dataframe_returns. split; [|by split].
  rewrite assemble_table_unfold, (read_back_all_valid D Hvalid), Hlen.
  destruct D as [|d D]; [done|]. by rewrite Hdens.
Qed.

(** X7: when every source of the manifest is read to the end or fails
    before any accumulator is extended, the sets that were read are
    acceptable to the table assembler and hold at least one sample, and the
    destination can be written, the run returns a table with one row per
    accumulated sample, whose input columns are the sets of the sources one
    after the other in manifest order, and stores it at the destination. *)
Theorem run_completes (file_path output_dir save_path : string)
    (s : State) (text : string) :
  fs s !! file_path = Some text ->
  let sets := omap (decoded_source output_dir) (drop 1 (readlines text)) in
  Forall (clean output_dir) (drop 1 (readlines text)) ->
  Forall acceptable sets ->
  flat_map rv_DateTimes sets <> [] ->
  writable save_path = true ->
  exists df s',
    fetch_and_process_data file_path output_dir save_path s = (Ok df, s')
    /\ nrows df = length (flat_map rv_DateTimes sets)
    /\ df_lookup df "datetime"
       = Some (StrCol (map (strftime datetime_format)
                         (flat_map rv_DateTimes sets)))
    /\ df_lookup df "surface_pressure" = Some (FloatCol (flat_map rv_PS sets))
    /\ df_lookup df "u_50" = Some (FloatCol (flat_map rv_u_50 sets))
    /\ df_lookup df "v_50" = Some (FloatCol (flat_map rv_v_50 sets))
    /\ df_lookup df "temp_2m" = Some (FloatCol (flat_map rv_T2M sets))
    /\ fs s' !! save_path = Some (csv_text df).
Proof.
  intros Hmanifest sets Hclean Hacc Hne Hw.
  unfold fetch_and_process_data. rewrite Hmanifest. cbn zeta.
  set (s0 := mk_State [] [] [] [] [] (fs s) (trace s)).
  set (s1 := process_sources output_dir (drop 1 (readlines text)) s0).
  destruct (accumulation_order_aux output_dir (drop 1 (readlines text)) s0
              Hclean) as (Eu & Ev & Et & Ep & Ed).
  fold sets s1 in Eu, Ev, Et, Ep, Ed. cbn in Eu, Ev, Et, Ep, Ed.
  rewrite Eu, Ev, Et, Ep, Ed.
  apply acceptable_concat in Hacc as (Hal & HT & HP & HD).
  rewrite rvs_concat_flat in Hal, HT, HP, HD.
  destruct Hal as (Lv & Lt & Lp & Ld). cbn in Lv, Lt, Lp, Ld, HT, HP, HD.
  destruct (create_dataframe_accepts (flat_map rv_DateTimes sets)
              (flat_map rv_u_50 sets) (flat_map rv_v_50 sets)
              (flat_map rv_T2M sets) (flat_map rv_PS sets) save_path s1)
    as (dens & Hrun); try done.
  { apply same_lengths_true. lia. }
  rewrite Hrun. eexists _, _. split; [reflexivity|].
  split; [by cbn; rewrite length_map|].
  do 5 (split; [reflexivity|]).
  cbn. apply lookup_insert_eq.
Qed.

(** ** Further facts about the table assembler and the density model *)

(** X8: how [create_dataframe] fails on timestamps that [datetime] can
    hold.  Sequences of different lengths raise the length error before the
    density model sees them; five empty sequences raise the attribute error
    of line 63, whatever the destination, because the empty datetime column
    has no [.dt]; with equal lengths and at least one sample a negative
    temperature or pressure raises the error of line 14; with neither, a
    destination that cannot be written raises the error of the operating
    system.  In all four cases the state is left as it was: nothing is
    written, nothing is reported as saved. *)
Theorem create_dataframe_failure_modes (D : list datetime)
    (u v T P : list float) (save_path : string) (s : State) :
  Forall (fun dt => valid_datetime dt = true) D ->
  (same_lengths D u v T P = false ->
   create_dataframe D u v T P save_path s
   = (Raise (ValueError same_length_msg), s))
  /\ (same_lengths D u v T P = true ->
      D = [] ->
      create_dataframe D u v T P save_path s
      = (Raise (AttributeError "dt"), s))
  /\ (same_lengths D u v T P = true ->
      D <> [] ->
      has_negative T \/ has_negative P ->
      create_dataframe D u v T P save_path s = (Raise InvalidInputError, s))
  /\ (same_lengths D u v T P = true ->
      D <> [] ->
      no_negative T -> no_negative P ->
      writable save_path = false ->
      create_dataframe D u v T P save_path s
      = (Raise (OSError save_path), s)).
Proof.
  intros Hvalid.
  unfold create_dataframe, abind, lift, to_csv.
  rewrite assemble_table_unfold, (read_back_all_valid D Hvalid).
  split; [|split; [|split]].
  - by intros ->.
  - by intros -> ->.
  - intros -> Hne Hneg. destruct D as [|d D]; [done|].
    rewrite (compute_air_density_rejects T P None); [done|].
    destruct Hneg as [HT | HP]; [by left | right; by left].
  - intros Hlen Hne HT HP Hw. rewrite Hlen.
    destruct D as [|d D]; [done|].
    apply same_lengths_true in Hlen as (LP & _ & _ & LT).
    destruct (compute_air_density_default T P) as (dens & -> & _);
      [lia | done | done |].
    by rewrite Hw.
Qed.

Lemma substring_beyond (n m : nat) (s : string) :
  String.length s <= n -> substring n m s = EmptyString.
Proof.
  revert n m. induction s as [|c s IH]; intros [|n] m Hlen; cbn in *;
    try lia.
  - by destruct m.
  - reflexivity.
  - apply IH. lia.
Qed.

Lemma length_substring_le (n m : nat) (s : string) :
  String.length (substring n m s) <= m.
Proof.
  revert n m. induction s as [|c s IH]; intros [|n] [|m]; cbn; try lia.
  - specialize (IH 0 m). lia.
  - apply (IH n 0).
  - apply (IH n (S m)).
Qed.

Lemma length_lstrip_le (s : string) :
  String.length (lstrip s) <= String.length s.
Proof.
  induction s as [|c s IH]; cbn; [lia|].
  destruct (is_space c); cbn; lia.
Qed.

Lemma length_rstrip_le (s : string) :
  String.length (rstrip s) <= String.length s.
Proof.
  induction s as [|c s IH]; cbn; [lia|].
  destruct (rstrip s); [destruct (is_space c)|]; cbn in *; lia.
Qed.

Lemma length_string_app (a b : string) :
  String.length (a ++ b)%string = String.length a + String.length b.
Proof.
  induction a as [|c a IH]; [reflexivity|].
  change (String.length (String c a ++ b)%string)
    with (S (String.length (a ++ b)%string)).
  by rewrite IH.
Qed.

(** X9: the name of a temporary artifact is a stem of at most eight
    characters followed by [-site.nc4]; a manifest line of at most 108
    characters (a blank line, a short URL) has the empty stem, so that all
    such lines share the one name [-site.nc4]. *)
Theorem file_name_of_bounds :
  (forall url : string,
     exists stem,
       file_name_of url = (stem ++ "-site.nc4")%string
       /\ String.length stem <= 8
       /\ String.length (file_name_of url) <= 17)
  /\ (forall url : string,
        String.length url <= 108 -> file_name_of url = "-site.nc4").
Proof.
  split.
  - intros url. exists (strip (slice 108 116 url)).
    assert (String.length (strip (slice 108 116 url)) <= 8) as Hstem.
    { unfold strip, slice.
      pose proof (length_rstrip_le (lstrip (substring 108 (116 - 108) url))).
      pose proof (length_lstrip_le (substring 108 (116 - 108) url)).
      pose proof (length_substring_le 108 (116 - 108) url).
      change (116 - 108) with 8 in *. lia. }
    split; [reflexivity|]. split; [exact Hstem|].
    unfold file_name_of. rewrite length_string_app.
    change (String.length site_suffix) with 9. lia.
  - intros url Hlen. unfold file_name_of, slice.
    by rewrite substring_beyond.
Qed.

Lemma nan_mul (y : float) : (nan * y)%float = nan.
Proof.
  apply Prim2SF_inj. rewrite mul_spec.
  change (Prim2SF nan) with S754_nan. reflexivity.
Qed.

Lemma div_nan (x : float) : (x / nan)%float = nan.
Proof.
  apply Prim2SF_inj. rewrite div_spec.
  change (Prim2SF nan) with S754_nan. unfold SF64div, SFdiv.
  by destruct (Prim2SF x).
Qed.

(** X10: a temperature that is not a number passes the validation of line
    13 (it is not below zero), and the density at its index is not a number
    either, whatever the pressure and the humidity there. *)
Theorem compute_air_density_nan_temperature (T P RH : ndarray) (i : nat) :
  length P = length T -> length RH = length T ->
  no_negative T -> no_negative P -> no_negative RH ->
  T !! i = Some nan ->
  (nan <? 0)%float = false
  /\ exists rho,
       compute_air_density T P (Some RH) = Ok rho
       /\ rho !! i = Some nan.
Proof.
  intros HP HRH HT HPn HRHn Hi. split; [reflexivity|].
  destruct (density_arithmetic T P RH HP HRH) as (rho & Hrho & _ & Hform).
  exists rho. split.
  - unfold compute_air_density, rel_humidity_of.
    apply any_lt_zero_false in HT, HPn, HRHn.
    by rewrite HT, HPn, HRHn.
  - pose proof (lookup_lt_Some _ _ _ Hi) as Hlt.
    destruct (lookup_lt_is_Some_2 P i) as [p Hp]; [lia|].
    destruct (lookup_lt_is_Some_2 RH i) as [h Hh]; [lia|].
    rewrite (Hform i nan p h Hi Hp Hh). f_equal.
    unfold density_formula. by rewrite div_nan, nan_mul.
Qed.

Lemma mapM_result_ext {A B : Type} (f : A -> result B) (l l' : list A) :
  Forall2 (fun a b => f a = f b) l l' ->
  mapM_result f l = mapM_result f l'.
Proof.
  induction 1 as [|a b l l' Hab _ IH]; [reflexivity|].
  cbn [mapM_result]. by rewrite Hab, IH.
Qed.

(** X12: the table keeps nothing below the second: two series whose
    timestamps agree down to the second, with the same values, give the
    same result and the same final state, whatever their microseconds. *)
Theorem create_dataframe_drops_subsecond (D D' : list datetime)
    (u v T P : list float) (save_path : string) (s : State) :
  Forall2 same_to_the_second D D' ->
  create_dataframe D u v T P save_path s
  = create_dataframe D' u v T P save_path s.
Proof.
  intros Hsame. unfold create_dataframe, assemble_table.
  rewrite (mapM_result_ext _ D D'); [reflexivity|].
  eapply Forall2_impl; [exact Hsame|].
  intros a b (Hy & Hm & Hd & Hh & Hmi & Hs). unfold strftime.
  by rewrite Hy, Hm, Hd, Hh, Hmi, Hs.
Qed.

End Pipeline.

(** * The properties on a concrete world

    The statements above are run here on the world of [Demo]: a manifest of
    four sources, of which one decodes, one is answered with 404, one lacks a
    variable and one is no dataset. *)

Abbreviation demo_fetch_result :=
  (fetch_result Demo.requests_get Demo.writable Demo.nc_open).
Abbreviation demo_try_body :=
  (try_body Demo.requests_get Demo.writable Demo.nc_open Demo.num2date).
Abbreviation demo_process_source :=
  (process_source Demo.requests_get Demo.writable Demo.nc_open Demo.num2date).
Abbreviation demo_process_sources :=
  (process_sources Demo.requests_get Demo.writable Demo.nc_open Demo.num2date).
Abbreviation demo_create_dataframe :=
  (create_dataframe Demo.exp Demo.writable Demo.csv_text).
Abbreviation demo_source_events :=
  (source_events Demo.requests_get Demo.writable Demo.nc_open Demo.num2date).
Abbreviation demo_source_disk :=
  (source_disk Demo.requests_get Demo.writable Demo.nc_open Demo.num2date).
Abbreviation demo_fetch_and_process_data :=
  (fetch_and_process_data Demo.exp Demo.requests_get Demo.writable
     Demo.nc_open Demo.num2date Demo.csv_text).

(** On [T = [280.0]], [P = [101325.0]], [RH = [0.5]] the density model
    returns the closed form. *)
Lemma compute_air_density_closed_form_witness :
  exists rho,
    compute_air_density Demo.exp [280.0%float] [101325.0%float]
      (Some [0.5%float]) = Ok rho
    /\ length rho = 1
    /\ forall i t p h,
         [280.0%float] !! i = Some t -> [101325.0%float] !! i = Some p ->
         [0.5%float] !! i = Some h ->
         rho !! i = Some (density_formula Demo.exp t p h).
Proof.
  apply (compute_air_density_closed_form Demo.exp
           [280.0%float] [101325.0%float] [0.5%float]);
    [reflexivity | reflexivity | | |];
    repeat constructor.
Defined.

(** The example of the specification: on [T = [280.0]], [P = [101325.0]]
    the call without humidity equals the call with [humidity = [0.5]]. *)
Lemma compute_air_density_default_humidity_witness :
  compute_air_density Demo.exp [280.0%float] [101325.0%float] None
  = compute_air_density Demo.exp [280.0%float] [101325.0%float]
      (Some [0.5%float]).
Proof.
  apply (compute_air_density_default_humidity Demo.exp
           [280.0%float] [101325.0%float] [0.5%float]);
    [reflexivity | repeat constructor].
Defined.

Lemma demo_create_dataframe_returns :
  demo_create_dataframe Demo.stamps Demo.winds_u Demo.winds_v Demo.temps
    Demo.pressures Demo.save_path Demo.world
  = (Ok Demo.table, Demo.saved).
Proof. vm_compute. reflexivity. Qed.

(** The first row of the demo table has [u_50 = 3.0], [v_50 = 4.0] and the
    wind speed 5.0. *)
Lemma create_dataframe_wind_speed_witness :
  (exists us vs ws,
     df_lookup Demo.table "u_50" = Some (FloatCol us)
     /\ df_lookup Demo.table "v_50" = Some (FloatCol vs)
     /\ df_lookup Demo.table "ws_50m" = Some (FloatCol ws)
     /\ length ws = nrows Demo.table
     /\ forall i, i < nrows Demo.table ->
          exists ui vi,
            us !! i = Some ui /\ vs !! i = Some vi
            /\ ws !! i = Some (wind_speed ui vi))
  /\ wind_speed 3.0 4.0 = 5.0%float.
Proof.
  apply (create_dataframe_wind_speed Demo.exp Demo.writable Demo.csv_text
           Demo.stamps Demo.winds_u Demo.winds_v Demo.temps Demo.pressures
           Demo.save_path Demo.world Demo.saved Demo.table).
  exact demo_create_dataframe_returns.
Defined.

(** Two accumulated samples give a table of two rows. *)
Lemma create_dataframe_table_witness :
  exists df s',
    demo_create_dataframe Demo.stamps Demo.winds_u Demo.winds_v Demo.temps
      Demo.pressures Demo.save_path Demo.world = (Ok df, s')
    /\ nrows df = 2
    /\ Forall (fun kc => col_length kc.2 = 2) df
    /\ column_names df = output_columns
    /\ exists texts,
         df_lookup df "datetime" = Some (StrCol texts)
         /\ length texts = 2
         /\ Forall (fun t => is_ymd_hms t = true) texts.
Proof.
  apply (create_dataframe_table Demo.exp Demo.writable Demo.csv_text 2
           Demo.stamps Demo.winds_u Demo.winds_v Demo.temps Demo.pressures
           Demo.save_path Demo.world);
    try reflexivity; try lia; repeat constructor.
Defined.

(** C7, as stated, fails on two series.  One accumulated sample with the
    temperature [-1.0] has length one, and [create_dataframe] raises on it
    instead of producing a table of one row.  The series of length zero,
    which a run accumulates when every source fails, gives a datetime column
    without [.dt]: line 63 raises, and nothing is written. *)
Lemma create_dataframe_no_table :
  (demo_create_dataframe [Demo.earlier] [3.0%float] [4.0%float]
     [(-1.0)%float] [101325.0%float] Demo.save_path Demo.world).1
  = Raise InvalidInputError
  /\ demo_create_dataframe [] [] [] [] [] Demo.save_path Demo.world
     = (Raise (AttributeError "dt"), Demo.world).
Proof. split; vm_compute; reflexivity. Qed.

(** The demo samples stand in accumulation order with the later instant
    first, and the table keeps them so. *)
Lemma create_dataframe_row_order_witness :
  nrows Demo.table = length Demo.stamps
  /\ df_lookup Demo.table "datetime"
     = Some (StrCol (map (strftime datetime_format) Demo.stamps))
  /\ df_lookup Demo.table "surface_pressure" = Some (FloatCol Demo.pressures)
  /\ df_lookup Demo.table "u_50" = Some (FloatCol Demo.winds_u)
  /\ df_lookup Demo.table "v_50" = Some (FloatCol Demo.winds_v)
  /\ df_lookup Demo.table "temp_2m" = Some (FloatCol Demo.temps)
  /\ exists dens ws,
       df_lookup Demo.table "dens_50m" = Some (FloatCol dens)
       /\ df_lookup Demo.table "ws_50m" = Some (FloatCol ws)
       /\ forall i ui vi ti pi,
            Demo.winds_u !! i = Some ui -> Demo.winds_v !! i = Some vi ->
            Demo.temps !! i = Some ti -> Demo.pressures !! i = Some pi ->
            dens !! i = Some (density_formula Demo.exp ti pi 0.5)
            /\ ws !! i = Some (wind_speed ui vi).
Proof.
  apply (create_dataframe_row_order Demo.exp Demo.writable Demo.csv_text
           Demo.stamps Demo.winds_u Demo.winds_v Demo.temps Demo.pressures
           Demo.save_path Demo.world Demo.saved Demo.table).
  exact demo_create_dataframe_returns.
Defined.

Lemma demo_delivers_first :
  delivers Demo.requests_get Demo.writable Demo.nc_open Demo.num2date
    Demo.output_dir (Demo.line_of "20200101").
Proof.
  unfold delivers.
  assert (demo_fetch_result (Demo.line_of "20200101")
            (os_path_join Demo.output_dir
               (file_name_of (Demo.line_of "20200101")))
          = Ok Demo.site_1) as -> by (vm_compute; reflexivity).
  left. exists [3.0; 1.5]%float, [4.0; -2.0]%float, [280.0; 281.5]%float,
    [101325.0; 101300.0]%float,
    [mk_datetime 2020 1 1 0 30 0 0; mk_datetime 2020 1 1 1 30 0 0].
  repeat split; vm_compute; reflexivity.
Qed.

Lemma demo_delivers_failing (day : string) (e : exn) :
  demo_fetch_result (Demo.line_of day)
    (os_path_join Demo.output_dir (file_name_of (Demo.line_of day)))
  = Raise e ->
  delivers Demo.requests_get Demo.writable Demo.nc_open Demo.num2date
    Demo.output_dir (Demo.line_of day).
Proof. unfold delivers. by intros ->. Qed.

(** The source answered with 404 leaves the accumulators alone, and the run
    over the first, second and fourth source keeps the five lengths equal
    after each of them. *)
Lemma accumulators_after_each_source_witness :
  same_accumulators Demo.world
    (demo_process_source Demo.output_dir (Demo.line_of "20200102") Demo.world)
  /\ forall k : nat,
       aligned
         (demo_process_sources Demo.output_dir
            (take k [Demo.line_of "20200101"; Demo.line_of "20200102";
                     Demo.line_of "20200104"])
            Demo.world).
Proof.
  destruct (accumulators_after_each_source Demo.requests_get Demo.writable
              Demo.nc_open Demo.num2date Demo.output_dir) as [Hfail Hloop].
  split.
  - apply Hfail. left. exists (HTTPError 404). vm_compute. reflexivity.
  - apply Hloop.
    + constructor; [apply demo_delivers_first|].
      constructor.
      { apply (demo_delivers_failing "20200102" (HTTPError 404)).
        vm_compute. reflexivity. }
      constructor; [|constructor].
      apply (demo_delivers_failing "20200104"
               (OSError "NetCDF: Unknown file format")).
      vm_compute. reflexivity.
    + vm_compute. repeat split; reflexivity.
Defined.

(** C1: the third source of the demo manifest has a dataset with [U50M]
    and no [V50M].  The body of the [try] raises [KeyError] at the second
    comprehension, after [u_50] was extended: the failed source has changed
    an accumulator, the five lengths differ, and the run over the manifest
    ends with the length error of the table assembler instead of a table.
    On the sibling paths the loop does keep the accumulators in step: the
    second source, which fails at retrieval, leaves them as they were, and
    the first, which is read to the end, leaves them with one length. *)
Theorem partial_source_mutates_accumulators :
  let line := Demo.line_of "20200103" in
  let path := os_path_join Demo.output_dir (file_name_of line) in
  let s' := demo_process_source Demo.output_dir line Demo.world in
  (demo_try_body line path Demo.world).1 = Raise (KeyError "V50M")
  /\ aligned Demo.world
  /\ u_50 Demo.world = [] /\ u_50 s' = [2.5%float] /\ v_50 s' = []
  /\ ~ same_accumulators Demo.world s'
  /\ ~ aligned s'
  /\ (demo_fetch_and_process_data Demo.manifest_path Demo.output_dir
        Demo.save_path Demo.world).1
     = Raise (ValueError same_length_msg)
  /\ same_accumulators Demo.world
       (demo_process_source Demo.output_dir (Demo.line_of "20200102")
          Demo.world)
  /\ aligned
       (demo_process_source Demo.output_dir (Demo.line_of "20200101")
          Demo.world).
Proof.
  cbn zeta. split; [vm_compute; reflexivity|].
  split; [vm_compute; repeat split; reflexivity|].
  do 3 (split; [vm_compute; reflexivity|]).
  split; [|split].
  - intros [Hu _]. vm_compute in Hu. discriminate.
  - intros [Hv _]. vm_compute in Hv. discriminate.
  - split; [vm_compute; reflexivity|].
    split; vm_compute; repeat split; reflexivity.
Qed.

(** C2: the fourth source of the demo manifest answers 200 with a payload
    that is no dataset.  The payload is persisted, opening it raises, and at
    the end of the turn the temporary artifact is still on disk with the
    payload in it, where the claim has it deleted; the first source, which
    decodes, leaves nothing behind. *)
Theorem undecodable_payload_stays_on_disk :
  let line := Demo.line_of "20200104" in
  let path := os_path_join Demo.output_dir (file_name_of line) in
  persisted Demo.requests_get Demo.writable line path
    (mk_Response 200 "<html>busy</html>")
  /\ (demo_try_body line path Demo.world).1
     = Raise (OSError "NetCDF: Unknown file format")
  /\ fs Demo.world !! path = None
  /\ fs (demo_process_source Demo.output_dir line Demo.world) !! path
     = Some "<html>busy</html>"
  /\ fs (demo_process_source Demo.output_dir (Demo.line_of "20200101")
           Demo.world)
       !! os_path_join Demo.output_dir
            (file_name_of (Demo.line_of "20200101"))
     = None.
Proof.
  cbn zeta. split; [repeat split; vm_compute; reflexivity|].
  repeat split; vm_compute; reflexivity.
Qed.

(** The run on the demo manifest: four requests in the order of the lines
    after the header; the second, third and fourth source are reported
    under their own names; the payloads of the third and the fourth stay at
    their own paths; the run raises, so that nothing is saved. *)
Lemma fetch_and_process_data_manifest_witness :
  let lines := drop 1 (readlines Demo.manifest) in
  let run :=
    demo_fetch_and_process_data Demo.manifest_path Demo.output_dir
      Demo.save_path Demo.world in
  requests (trace run.2)
  = (requests (trace Demo.world) ++ map strip lines)%list
  /\ trace run.2
     = (trace Demo.world
        ++ flat_map (demo_source_events Demo.output_dir) lines
        ++ match run.1 with
           | Ok _ => [Saved Demo.save_path]
           | Raise _ => []
           end)%list
  /\ fs run.2
     = (let disk :=
          foldl (fun disk line => demo_source_disk Demo.output_dir line disk)
            (fs Demo.world) lines in
        match run.1 with
        | Ok df => <[Demo.save_path := Demo.csv_text df]> disk
        | Raise _ => disk
        end).
Proof.
  apply (fetch_and_process_data_manifest Demo.exp Demo.requests_get
           Demo.writable Demo.nc_open Demo.num2date Demo.csv_text
           Demo.manifest_path Demo.output_dir Demo.save_path Demo.world
           Demo.manifest).
  vm_compute. reflexivity.
Defined.

(** C9, as stated, fails.  A manifest line that ends before offset 116 has
    its newline inside the slice, and the name is built without it; a line
    that starts with a blank has its URL one character further, and the name
    is cut from the line, not from the URL. *)
Lemma file_name_is_not_the_plain_slice :
  let short := (Demo.url_prefix ++ "2020" ++ String LF EmptyString)%string in
  let indented := (" " ++ Demo.line_of "20200101")%string in
  file_name_of short = "2020-site.nc4"
  /\ file_name_of short <> (slice 108 116 short ++ site_suffix)%string
  /\ file_name_of indented = ".2020010-site.nc4"
  /\ (slice 108 116 (strip indented) ++ site_suffix)%string
     = "20200101-site.nc4"
  /\ file_name_of indented
     <> (slice 108 116 (strip indented) ++ site_suffix)%string.
Proof.
  cbn zeta. repeat split; try (vm_compute; reflexivity);
    intros Heq; vm_compute in Heq; discriminate.
Qed.

(** * The further properties on the concrete world *)

Abbreviation demo_retrieval := (retrieval Demo.requests_get).
Abbreviation demo_decode_dataset := (decode_dataset Demo.num2date).
Abbreviation demo_decoded_source :=
  (decoded_source Demo.requests_get Demo.writable Demo.nc_open Demo.num2date).
Abbreviation demo_clean :=
  (clean Demo.requests_get Demo.writable Demo.nc_open Demo.num2date).

Lemma demo_fetch_first :
  demo_fetch_result (Demo.line_of "20200101")
    (os_path_join Demo.output_dir (file_name_of (Demo.line_of "20200101")))
  = Ok Demo.site_1.
Proof. vm_compute. reflexivity. Qed.

Lemma demo_decode_first :
  demo_decode_dataset Demo.site_1 = Ok DemoClean.site_1_set.
Proof. vm_compute. reflexivity. Qed.

Lemma demo_clean_urls : Forall (demo_clean Demo.output_dir) DemoClean.urls.
Proof.
  unfold DemoClean.urls. constructor.
  { unfold clean. rewrite demo_fetch_first. left.
    exists DemoClean.site_1_set. exact demo_decode_first. }
  constructor.
  { unfold clean.
    assert (demo_fetch_result (Demo.line_of "20200102")
              (os_path_join Demo.output_dir
                 (file_name_of (Demo.line_of "20200102")))
            = Raise (HTTPError 404)) as -> by (vm_compute; reflexivity).
    exact I. }
  constructor; [|constructor].
  unfold clean.
  assert (demo_fetch_result (Demo.line_of "20200104")
            (os_path_join Demo.output_dir
               (file_name_of (Demo.line_of "20200104")))
          = Raise (OSError "NetCDF: Unknown file format")) as ->
      by (vm_compute; reflexivity).
  exact I.
Qed.

Lemma demo_decoded_sets :
  omap (demo_decoded_source Demo.output_dir) DemoClean.urls
  = [DemoClean.site_1_set].
Proof. vm_compute. reflexivity. Qed.

(** The source answered with 404: the state gains the request and the
    report, and nothing else. *)
Lemma retrieval_failure_state_witness :
  demo_process_source Demo.output_dir (Demo.line_of "20200102") Demo.world
  = log (Failed (file_name_of (Demo.line_of "20200102")) (HTTPError 404))
      (log (Requested (strip (Demo.line_of "20200102"))) Demo.world).
Proof.
  apply (retrieval_failure_state Demo.requests_get Demo.writable Demo.nc_open
           Demo.num2date Demo.output_dir (Demo.line_of "20200102")
           Demo.world (HTTPError 404)).
  vm_compute. reflexivity.
Defined.

(** The first source of the demo manifest is read to the end. *)
Lemma decoded_source_state_witness :
  let path :=
    os_path_join Demo.output_dir (file_name_of (Demo.line_of "20200101")) in
  demo_process_source Demo.output_dir (Demo.line_of "20200101") Demo.world
  = mk_State
      (u_50 Demo.world ++ rv_u_50 DemoClean.site_1_set)
      (v_50 Demo.world ++ rv_v_50 DemoClean.site_1_set)
      (T2M Demo.world ++ rv_T2M DemoClean.site_1_set)
      (PS Demo.world ++ rv_PS DemoClean.site_1_set)
      (DateTimes Demo.world ++ rv_DateTimes DemoClean.site_1_set)
      (delete path (fs Demo.world))
      (trace Demo.world ++ [Requested (strip (Demo.line_of "20200101"))]).
Proof.
  apply (decoded_source_state Demo.requests_get Demo.writable Demo.nc_open
           Demo.num2date Demo.output_dir (Demo.line_of "20200101")
           Demo.world Demo.site_1 DemoClean.site_1_set).
  - exact demo_fetch_first.
  - exact demo_decode_first.
Defined.

(** Over the first, second and fourth source only the first contributes. *)
Lemma accumulation_in_manifest_order_witness :
  let sets := omap (demo_decoded_source Demo.output_dir) DemoClean.urls in
  let s' := demo_process_sources Demo.output_dir DemoClean.urls Demo.world in
  u_50 s' = (u_50 Demo.world ++ flat_map rv_u_50 sets)%list
  /\ v_50 s' = (v_50 Demo.world ++ flat_map rv_v_50 sets)%list
  /\ T2M s' = (T2M Demo.world ++ flat_map rv_T2M sets)%list
  /\ PS s' = (PS Demo.world ++ flat_map rv_PS sets)%list
  /\ DateTimes s' = (DateTimes Demo.world ++ flat_map rv_DateTimes sets)%list
  /\ length (u_50 s')
     = length (u_50 Demo.world)
       + sum_list (map (fun r => length (rv_u_50 r)) sets).
Proof.
  apply (accumulation_in_manifest_order Demo.requests_get Demo.writable
           Demo.nc_open Demo.num2date Demo.output_dir DemoClean.urls
           Demo.world).
  exact demo_clean_urls.
Defined.

(** The demo manifest has the source without [V50M] in third place, and the
    run over it returns no table. *)
Lemma late_failure_aborts_run_witness :
  exists e,
    demo_fetch_and_process_data Demo.manifest_path Demo.output_dir
      Demo.save_path Demo.world
    = (Raise e,
       demo_process_sources Demo.output_dir
         ([Demo.line_of "20200101"; Demo.line_of "20200102"]
          ++ Demo.line_of "20200103" :: [Demo.line_of "20200104"])
         (mk_State [] [] [] [] [] (fs Demo.world) (trace Demo.world))).
Proof.
  apply (late_failure_aborts_run Demo.exp Demo.requests_get Demo.writable
           Demo.nc_open Demo.num2date Demo.csv_text Demo.manifest_path
           Demo.output_dir Demo.save_path Demo.world Demo.manifest).
  - vm_compute. reflexivity.
  - vm_compute. reflexivity.
  - constructor; [apply demo_delivers_first|].
    constructor; [|constructor].
    apply (demo_delivers_failing "20200102" (HTTPError 404)).
    vm_compute. reflexivity.
  - constructor; [|constructor].
    apply (demo_delivers_failing "20200104"
             (OSError "NetCDF: Unknown file format")).
    vm_compute. reflexivity.
  - exists Demo.no_V50M, [2.5%float], (KeyError "V50M").
    repeat split; try (vm_compute; reflexivity). discriminate.
Defined.

(** The run over the manifest without the third source returns the two
    samples of the first source and stores the table. *)
Lemma run_completes_witness :
  let sets :=
    omap (demo_decoded_source Demo.output_dir)
      (drop 1 (readlines DemoClean.manifest)) in
  exists df s',
    demo_fetch_and_process_data Demo.manifest_path Demo.output_dir
      Demo.save_path DemoClean.world = (Ok df, s')
    /\ nrows df = length (flat_map rv_DateTimes sets)
    /\ df_lookup df "datetime"
       = Some (StrCol (map (strftime datetime_format)
                         (flat_map rv_DateTimes sets)))
    /\ df_lookup df "surface_pressure" = Some (FloatCol (flat_map rv_PS sets))
    /\ df_lookup df "u_50" = Some (FloatCol (flat_map rv_u_50 sets))
    /\ df_lookup df "v_50" = Some (FloatCol (flat_map rv_v_50 sets))
    /\ df_lookup df "temp_2m" = Some (FloatCol (flat_map rv_T2M sets))
    /\ fs s' !! Demo.save_path = Some (Demo.csv_text df).
Proof.
  assert (drop 1 (readlines DemoClean.manifest) = DemoClean.urls) as Hurls
      by (vm_compute; reflexivity).
  apply (run_completes Demo.exp Demo.requests_get Demo.writable Demo.nc_open
           Demo.num2date Demo.csv_text Demo.manifest_path Demo.output_dir
           Demo.save_path DemoClean.world DemoClean.manifest).
  - vm_compute. reflexivity.
  - rewrite Hurls. exact demo_clean_urls.
  - rewrite Hurls, demo_decoded_sets.
    constructor; [|constructor].
    unfold acceptable, rvs_aligned, DemoClean.site_1_set. cbn.
    repeat split; repeat constructor.
  - rewrite Hurls, demo_decoded_sets. discriminate.
  - reflexivity.
Defined.

(** The four failures on the demo samples: a [u_50] that is one sample
    short, no sample at all, a negative temperature, a destination that
    cannot be written. *)
Lemma create_dataframe_failure_modes_witness :
  demo_create_dataframe Demo.stamps [3.0%float] Demo.winds_v Demo.temps
    Demo.pressures Demo.save_path Demo.world
  = (Raise (ValueError same_length_msg), Demo.world)
  /\ demo_create_dataframe [] [] [] [] [] Demo.save_path Demo.world
     = (Raise (AttributeError "dt"), Demo.world)
  /\ demo_create_dataframe Demo.stamps Demo.winds_u Demo.winds_v
       [280.0%float; (-3.5)%float] Demo.pressures Demo.save_path Demo.world
     = (Raise InvalidInputError, Demo.world)
  /\ create_dataframe Demo.exp (fun _ => false) Demo.csv_text Demo.stamps
       Demo.winds_u Demo.winds_v Demo.temps Demo.pressures Demo.save_path
       Demo.world
     = (Raise (OSError Demo.save_path), Demo.world).
Proof.
  assert (Forall (fun dt => valid_datetime dt = true) Demo.stamps) as Hvalid
      by repeat constructor.
  split; [|split; [|split]].
  - apply (create_dataframe_failure_modes Demo.exp Demo.writable
             Demo.csv_text Demo.stamps [3.0%float] Demo.winds_v Demo.temps
             Demo.pressures Demo.save_path Demo.world Hvalid).
    reflexivity.
  - apply (create_dataframe_failure_modes Demo.exp Demo.writable
             Demo.csv_text [] [] [] [] [] Demo.save_path Demo.world);
      [constructor | reflexivity | reflexivity].
  - apply (create_dataframe_failure_modes Demo.exp Demo.writable
             Demo.csv_text Demo.stamps Demo.winds_u Demo.winds_v
             [280.0%float; (-3.5)%float] Demo.pressures Demo.save_path
             Demo.world Hvalid); [reflexivity | discriminate |].
    left. right. left. reflexivity.
  - apply (create_dataframe_failure_modes Demo.exp (fun _ => false)
             Demo.csv_text Demo.stamps Demo.winds_u Demo.winds_v Demo.temps
             Demo.pressures Demo.save_path Demo.world Hvalid);
      try reflexivity; try discriminate; repeat constructor.
Defined.

(** A temperature column with a value that is not a number. *)
Lemma compute_air_density_nan_temperature_witness :
  (nan <? 0)%float = false
  /\ exists rho,
       compute_air_density Demo.exp [280.0%float; nan]
         [101325.0%float; 101300.0%float] (Some [0.5%float; 0.5%float])
       = Ok rho
       /\ rho !! 1 = Some nan.
Proof.
  apply (compute_air_density_nan_temperature Demo.exp [280.0%float; nan]
           [101325.0%float; 101300.0%float] [0.5%float; 0.5%float] 1);
    try reflexivity; repeat constructor.
Defined.

(** The fourth source of the demo manifest: persisted, not opened, still
    on disk. *)
Lemma temporary_artifact_after_source_witness :
  let line := Demo.line_of "20200104" in
  let path := os_path_join Demo.output_dir (file_name_of line) in
  fs (demo_process_source Demo.output_dir line Demo.world) !! path
  = match (demo_try_body line path Demo.world).1 with
    | Ok _ => None
    | Raise _ => Some (content (mk_Response 200 "<html>busy</html>"))
    end.
Proof.
  apply (temporary_artifact_after_source Demo.requests_get Demo.writable
           Demo.nc_open Demo.num2date Demo.output_dir
           (Demo.line_of "20200104") Demo.world
           (mk_Response 200 "<html>busy</html>")).
  repeat split; vm_compute; reflexivity.
Defined.

(** The later demo sample with and without its quarter of a second. *)
Lemma create_dataframe_drops_subsecond_witness :
  demo_create_dataframe [Demo.later] [3.0%float] [4.0%float] [280.0%float]
    [101325.0%float] Demo.save_path Demo.world
  = demo_create_dataframe [mk_datetime 2020 1 2 13 30 0 0] [3.0%float]
      [4.0%float] [280.0%float] [101325.0%float] Demo.save_path Demo.world.
Proof.
  apply (create_dataframe_drops_subsecond Demo.exp Demo.writable
           Demo.csv_text [Demo.later] [mk_datetime 2020 1 2 13 30 0 0]).
  repeat constructor.
Defined.
